(** * ArticleGenerator: the request handler and the five-stage pipeline

    A shallow embedding of [utils.py], [generation.py] and [api.py].
    Python values are an inductive type, dictionaries are finite maps,
    and the effects of the program (calls to the chat model and to the
    translation service, console output, log records, exceptions) are the
    constructors of a small free monad [prog], interpreted against an
    arbitrary, history-dependent answer function for the two services. *)

From Stdlib Require Import ZArith NArith List String Ascii.
From Stdlib Require Import Floats.SpecFloat.
From stdpp Require Import base option list gmap.

Set Warnings "-register-all".
Local Open Scope Z_scope.

(** ** Python values *)

(** A Python [str] is a sequence of Unicode code points. *)
Abbreviation pystr := (list N).

(** A literal of the source, whose characters are all ASCII. *)
Definition py (s : string) : pystr :=
  List.map N_of_ascii (list_ascii_of_string s).

Inductive pyval : Type :=
| PyNone
| PyBool (b : bool)
| PyInt (n : Z)
| PyFloat (f : spec_float)
| PyStr (s : pystr)
| PyList (l : list pyval)
| PyDict (d : gmap pystr pyval).

(** [bool(v)]: the truth value tested by [if not v]. *)
Definition truthy (v : pyval) : bool :=
  match v with
  | PyNone => false
  | PyBool b => b
  | PyInt n => negb (n =? 0)
  | PyFloat (S754_zero _) => false
  | PyFloat _ => true
  | PyStr s => negb (Nat.eqb (length s) 0)
  | PyList l => negb (Nat.eqb (length l) 0)
  | PyDict d => negb (Nat.eqb (size d) 0)
  end.

(** [isinstance(v, str)] *)
Definition isinstance_str (v : pyval) : bool :=
  match v with PyStr _ => true | _ => false end.

(** [str.isspace] on one code point: the White_Space code points and the
    four separators U+001C..U+001F. *)
Definition isspace (c : N) : bool :=
  (((9 <=? c) && (c <=? 13)) || ((28 <=? c) && (c <=? 32))
   || (c =? 133) || (c =? 160) || (c =? 5760)
   || ((8192 <=? c) && (c <=? 8202))
   || (c =? 8232) || (c =? 8233) || (c =? 8239) || (c =? 8287)
   || (c =? 12288))%N.

Fixpoint lstrip (s : pystr) : pystr :=
  match s with
  | c :: s' => if isspace c then lstrip s' else s
  | [] => []
  end.

Definition rstrip (s : pystr) : pystr := rev (lstrip (rev s)).

(** [s.strip()] *)
Definition strip (s : pystr) : pystr := rstrip (lstrip s).

(** ** Exceptions *)

(** The exception classes the program can meet.  All of them derive from
    Python's [Exception]; [ServiceError] stands for whatever the chat
    model client or the translation client raises. *)
Inductive exn : Type :=
| HTTPException (status_code : Z) (detail : pystr)
| KeyError (key : pystr)
| TypeError
| ValueError (msg : pystr)
| OutputParserException (text : pystr)
| GraphRecursionError
| InvalidUpdateError (key : pystr)
| ServiceError (cls msg : pystr).

(** ** The chat model handle *)

Record ChatOllama : Type := {
  model : pystr;
  format : pystr;
  temperature : spec_float
}.

(** ** Effects *)

(** What a run leaves behind, in order. *)
Inductive event : Type :=
| EvPrint (msg : pystr)
| EvLogInfo (msg : pystr)
| EvLogError (msg : pystr) (e : exn)
| EvLLM (client : ChatOllama) (prompt : pystr) (answer : exn + pystr)
| EvTranslate (source target : pystr) (text : pyval) (answer : exn + pystr).

Abbreviation trace := (list event).

(** The program's effects as a free monad: a program returns, raises, or
    performs one effect and continues.  The two service calls continue
    with the service's answer, a text or an exception. *)
Inductive prog (A : Type) : Type :=
| Ret (a : A)
| Raise (e : exn)
| Print (msg : pystr) (k : prog A)
| LogInfo (msg : pystr) (k : prog A)
| LogError (msg : pystr) (e : exn) (k : prog A)
| CallLLM (client : ChatOllama) (prompt : pystr) (k : exn + pystr -> prog A)
| CallTranslate (source target : pystr) (text : pyval)
                (k : exn + pystr -> prog A).

Arguments Ret {A} a.
Arguments Raise {A} e.
Arguments Print {A} msg k.
Arguments LogInfo {A} msg k.
Arguments LogError {A} msg e k.
Arguments CallLLM {A} client prompt k.
Arguments CallTranslate {A} source target text k.

Fixpoint bind {A B : Type} (p : prog A) (f : A -> prog B) : prog B :=
  match p with
  | Ret a => f a
  | Raise e => Raise e
  | Print msg k => Print msg (bind k f)
  | LogInfo msg k => LogInfo msg (bind k f)
  | LogError msg e k => LogError msg e (bind k f)
  | CallLLM c prompt k => CallLLM c prompt (fun r => bind (k r) f)
  | CallTranslate src tgt text k =>
      CallTranslate src tgt text (fun r => bind (k r) f)
  end.

(** [try: p  except Exception as e: h e] *)
Fixpoint try_except {A : Type} (p : prog A) (h : exn -> prog A) : prog A :=
  match p with
  | Ret a => Ret a
  | Raise e => h e
  | Print msg k => Print msg (try_except k h)
  | LogInfo msg k => LogInfo msg (try_except k h)
  | LogError msg e k => LogError msg e (try_except k h)
  | CallLLM c prompt k => CallLLM c prompt (fun r => try_except (k r) h)
  | CallTranslate src tgt text k =>
      CallTranslate src tgt text (fun r => try_except (k r) h)
  end.

Declare Scope prog_scope.
Delimit Scope prog_scope with prog.
Notation "x <- p ;; q" := (bind p (fun x => q))
  (at level 100, p at next level, right associativity) : prog_scope.
Notation "p ;;; q" := (bind p (fun _ => q))
  (at level 100, right associativity) : prog_scope.
Local Open Scope prog_scope.

(** An answer of a service, lifted into the program. *)
Definition answer {A : Type} (r : exn + A) : prog A :=
  match r with inl e => Raise e | inr a => Ret a end.

Definition print (msg : string) : prog unit := Print (py msg) (Ret tt).

(** [GoogleTranslator(source=src, target=tgt).translate(text=text)] *)
Definition translate (src tgt : string) (text : pyval) : prog pystr :=
  CallTranslate (py src) (py tgt) text answer.

(** *** Running a program

    The services are not part of the repository.  Their behaviour is an
    arbitrary function of the request and of everything that happened
    before it, so that a service may answer the same request differently
    each time. *)
Record services : Type := {
  llm_answer : trace -> ChatOllama -> pystr -> exn + pystr;
  translate_answer : trace -> pystr -> pystr -> pyval -> exn + pystr
}.

Fixpoint run {A : Type} (p : prog A) (w : services) (tr : trace)
  : trace * (exn + A) :=
  match p with
  | Ret a => (tr, inr a)
  | Raise e => (tr, inl e)
  | Print msg k => run k w (tr ++ [EvPrint msg])
  | LogInfo msg k => run k w (tr ++ [EvLogInfo msg])
  | LogError msg e k => run k w (tr ++ [EvLogError msg e])
  | CallLLM c prompt k =>
      let r := llm_answer w tr c prompt in
      run (k r) w (tr ++ [EvLLM c prompt r])
  | CallTranslate src tgt text k =>
      let r := translate_answer w tr src tgt text in
      run (k r) w (tr ++ [EvTranslate src tgt text r])
  end.

(** ** Dictionaries *)

(** [d[key]] on a dictionary: the value, or a [KeyError] *)
Definition dict_subscript (d : gmap pystr pyval) (key : string)
  : exn + pyval :=
  match d !! py key with
  | Some v => inr v
  | None => inl (KeyError (py key))
  end.

(** [v[key]] on any value, with a [str] key: only a dictionary can be
    indexed by a string. *)
Definition subscript (v : pyval) (key : string) : exn + pyval :=
  match v with
  | PyDict d => dict_subscript d key
  | _ => inl TypeError
  end.

Definition dict_getitem (d : gmap pystr pyval) (key : string) : prog pyval :=
  answer (dict_subscript d key).

Definition getitem (v : pyval) (key : string) : prog pyval :=
  answer (subscript v key).

(** ** utils.py *)

(** The last branch, [input_str.strip()] on a value that is not a [str],
    lies behind the [isinstance] test and is never taken. *)
Definition validate_string (input_str : pyval) : prog unit :=
  if negb (truthy input_str) then
    Raise (HTTPException 400 (py "Input must be a string"))
  else if negb (isinstance_str input_str) then
    Raise (HTTPException 400 (py "Input must be a string"))
  else
    match input_str with
    | PyStr s =>
        if negb (truthy (PyStr (strip s))) then
          Raise (HTTPException 400
                   (py "Input cannot be empty or just whitespace"))
        else Ret tt
    | _ => Raise TypeError
    end.

(** ** langchain: prompt templates and the JSON output parser *)

Module langchain.

(** A template is the text of the source cut at its placeholders. *)
Inductive piece : Type :=
| Lit (text : string)
| Var (name : string).

Record PromptTemplate : Type := {
  template : list piece;
  input_variables : list string
}.

Section Chain.

(** [str(v)] for a value that is not a [str] itself *)
Variable py_str : pyval -> pystr.
(** [JsonOutputParser]: the parsed value, or nothing for a text that is
    not JSON *)
Variable parse_json : pystr -> option pyval.

Definition format_value (v : pyval) : pystr :=
  match v with PyStr s => s | _ => py_str v end.

(** [template.format] with keyword arguments: a placeholder without a
    value raises. *)
Fixpoint format_pieces (t : list piece) (kwargs : gmap pystr pyval)
  : prog pystr :=
  match t with
  | [] => Ret []
  | Lit text :: t' =>
      rest <- format_pieces t' kwargs;; Ret (py text ++ rest)
  | Var name :: t' =>
      v <- dict_getitem kwargs name;;
      rest <- format_pieces t' kwargs;; Ret (format_value v ++ rest)
  end.

(** [(prompt | llm | JsonOutputParser()).invoke(kwargs)] *)
Definition invoke_chain (prompt : PromptTemplate) (client : ChatOllama)
  (kwargs : gmap pystr pyval) : prog pyval :=
  text <- format_pieces (template prompt) kwargs;;
  raw <- CallLLM client text answer;;
  match parse_json raw with
  | Some v => Ret v
  | None => Raise (OutputParserException raw)
  end.

End Chain.
End langchain.

(** ** langgraph: the state graph and its executor

    The library is not part of the repository; this is its executor as
    far as the program uses it: nodes, plain edges and an entry point.
    The state holds the keys of the schema that have been written, a
    node reads the whole state and returns a dictionary of writes, and
    the writes of a step are merged into the state before the next step.
    A node without an outgoing edge ends the run, as the program relies
    on for [tags_generator]; a run of more than [recursion_limit] steps
    is an error. *)

Module langgraph.

Abbreviation node_fn := (gmap pystr pyval -> prog (gmap pystr pyval)).

Record StateGraph : Type := {
  schema : list string;
  nodes : list (pystr * node_fn);
  edges : list (pystr * pystr);
  entry_point : option pystr
}.

(** [StateGraph(schema)] *)
Definition new (schema : list string) : StateGraph :=
  {| schema := schema; nodes := []; edges := []; entry_point := None |}.

Definition add_node (name : string) (action : node_fn) (g : StateGraph)
  : StateGraph :=
  {| schema := schema g; nodes := nodes g ++ [(py name, action)];
     edges := edges g; entry_point := entry_point g |}.

Definition set_entry_point (name : string) (g : StateGraph) : StateGraph :=
  {| schema := schema g; nodes := nodes g;
     edges := edges g; entry_point := Some (py name) |}.

Definition add_edge (start_key end_key : string) (g : StateGraph)
  : StateGraph :=
  {| schema := schema g; nodes := nodes g;
     edges := edges g ++ [(py start_key, py end_key)];
     entry_point := entry_point g |}.

Fixpoint lookup_node (ns : list (pystr * node_fn)) (name : pystr)
  : option node_fn :=
  match ns with
  | [] => None
  | (n, f) :: ns' => if bool_decide (n = name) then Some f
                     else lookup_node ns' name
  end.

Definition is_node (g : StateGraph) (name : pystr) : bool :=
  match lookup_node (nodes g) name with Some _ => true | None => false end.

Record CompiledGraph : Type := { builder : StateGraph; entry : pystr }.

(** [graph.compile()]: the graph needs an entry point, and every edge
    must join two of its nodes. *)
Definition compile (g : StateGraph) : prog CompiledGraph :=
  match entry_point g with
  | None => Raise (ValueError (py "Graph must have an entrypoint"))
  | Some e =>
      if is_node g e
         && forallb (fun ed => is_node g ed.1 && is_node g ed.2) (edges g)
      then Ret {| builder := g; entry := e |}
      else Raise (ValueError (py "Found edge to or from unknown node"))
  end.

(** The part of a dictionary that lies in the schema. *)
Definition restrict (schema : list string) (d : gmap pystr pyval)
  : gmap pystr pyval :=
  filter (fun kv => kv.1 ∈ List.map py schema) d.

(** The nodes of one step all read the same state. *)
Fixpoint run_tasks (g : StateGraph) (tasks : list pystr)
  (state : gmap pystr pyval) : prog (list (gmap pystr pyval)) :=
  match tasks with
  | [] => Ret []
  | name :: rest =>
      match lookup_node (nodes g) name with
      | None => Raise (KeyError name)
      | Some action =>
          update <- action state;;
          updates <- run_tasks g rest state;;
          Ret (update :: updates)
      end
  end.

(** The writes of one step: a key written by two nodes of the same step
    is an error. *)
Fixpoint merge_writes (updates : list (gmap pystr pyval))
  (written : gmap pystr pyval) : prog (gmap pystr pyval) :=
  match updates with
  | [] => Ret written
  | u :: rest =>
      match elements (dom u ∩ dom written) with
      | k :: _ => Raise (InvalidUpdateError k)
      | [] => merge_writes rest (u ∪ written)
      end
  end.

Definition targets (g : StateGraph) (name : pystr) : list pystr :=
  List.map snd (List.filter (fun ed => bool_decide (ed.1 = name)) (edges g)).

Definition next_tasks (g : StateGraph) (tasks : list pystr) : list pystr :=
  remove_dups (List.flat_map (targets g) tasks).

(** One step: run the tasks, merge what they return into the state, and
    follow the edges. *)
Definition superstep (g : StateGraph) (tasks : list pystr)
  (state : gmap pystr pyval) : prog (list pystr * gmap pystr pyval) :=
  updates <- run_tasks g tasks state;;
  written <- merge_writes (List.map (restrict (schema g)) updates) ∅;;
  Ret (next_tasks g tasks, written ∪ state).

Fixpoint loop (recursion_limit : nat) (g : StateGraph) (tasks : list pystr)
  (state : gmap pystr pyval) : prog (gmap pystr pyval) :=
  match tasks with
  | [] => Ret state
  | _ :: _ =>
      match recursion_limit with
      | O => Raise GraphRecursionError
      | S limit =>
          c <- superstep g tasks state;;
          loop limit g c.1 c.2
      end
  end.

Definition recursion_limit : nat := 25.

(** [app.invoke(input)] *)
Definition invoke (app : CompiledGraph) (input : gmap pystr pyval)
  : prog (gmap pystr pyval) :=
  loop recursion_limit (builder app) [entry app]
       (restrict (schema (builder app)) input).

End langgraph.

(** ** generation.py *)

Module generation.
Import langchain langgraph.

(** The keys of the [GraphState] typed dictionary. *)
Definition GraphState : list string :=
  ["instruction"; "title_en"; "seo_en"; "summary_en"; "body_en";
   "title_id"; "seo_id"; "summary_id"; "body_id"; "tags"]%string.

Record ArticleGenerator : Type := {
  workflow : StateGraph;
  llm : ChatOllama
}.

Definition title_prompt : PromptTemplate := {|
  template :=
      [Lit "
            You are a content creation assistant that specialize in writing blog articles from various topics.
            You will be given an instruction that decide topic of the article, generate an appropriate title based on topic.
            The language of the instruction will be either in English or Indonesian, but the generated title must be in English.
            Follow these guidelines:
                - The title must be less than 60 characters.
                - The title must be one sentence
                - The must be able to catch readers' attention
                - Return the title in the JSON format with the key 'title_en' with no preamble or explanation.
    
            Title to be generated: ";
       Var "instruction"]%string;
  input_variables := ["instruction"]%string
|}.

Definition summary_prompt : PromptTemplate := {|
  template :=
      [Lit "
            You are a creative professional content creation assistant that specialize in writing blog articles from various topics.
            You will be given the title of an article, generate an appropriate summary based on the title.
            Follow these guidelines:
                - The summary must be related to the title.
                - The summary should be able to pique readers curiosity or interests.
                - Write in active voice. Use the passive voice only in rare cases.
                - The summary should be clear and concise
                - The summary should be 5 to 8 sentences long.
                - The summary must be approximately 100 words.
                - Return the summary in the JSON format with a single key 'summary_en' and no preamble or explanation.
    
            Title of the article: ";
       Var "title_en"]%string;
  input_variables := ["title_en"]%string
|}.

Definition body_prompt : PromptTemplate := {|
  template :=
      [Lit "
            You are a creative professional content creation assistant that specialize in writing blog articles from various topics.
            You will be given the title and summary of an article, generate appropriate body paragraphs based on the title and summary.
            Follow these guidelines:
                - Start the body paragraph with the body content without repeating the title
                - The body paragraph must elaborate on the title and expand the points in summary, using specific, recent, and relatable examples or events to engage the reader.
                - The body paragraph should be around 1000 words long.
                - Use everyday language for accessibility. If technical terms are necessary, explain them upon first reference.
                - You can add bullets point in the body
                - Maintain clarity by keeping the subject and verb close together.
                - Structure the body using markdowns and paragraphs to pique the reader's curiosity and maintain interest throughout.
                - Write in active voice, using passive voice only when absolutely necessary.
                - Ensure each paragraph has a clear topic sentence and transitions smoothly to the next point.
                - Return the body in the JSON format with a single key 'body_en' and no preamble or explanation.
                
            Title of the article: ";
       Var "title_en";
       Lit "
            Summary of the article: ";
       Var "summary_en"]%string;
  input_variables := ["title_en"; "summary_en"]%string
|}.

Definition tags_prompt : PromptTemplate := {|
  template :=
      [Lit "
            You are a creative professional content creation assistant that specialize in writing blog articles from various topics.
            You will be given the title and summary of an article in Indonesian, generate relevant and effective tags for the article in Indonesian.
            Follow these guidelines:
                - Ensure the tags encapsulate the content and key points of the article.
                - Use concise words or phrases that capture the essence of the article.
                - Use general tags to improve the article's reachability and relevance.
                - Each tag must be one or two words long.
                - Generate the most fitting tags.
                - Return the tags in the JSON format with a single key 'tags' as a list of string and no preamble or explanation.
    
            Title of the article: ";
       Var "title_id";
       Lit "
            Points of the article: ";
       Var "summary_id"]%string;
  input_variables := ["title_id"; "summary_id"]%string
|}.

Section Generator.

Variable py_str : pyval -> pystr.
Variable parse_json : pystr -> option pyval.

Abbreviation chain := (invoke_chain py_str parse_json).

Definition title_generator (self_llm : ChatOllama)
  (state : gmap pystr pyval) : prog (gmap pystr pyval) :=
  let title_gen := chain title_prompt self_llm in
  print "Receiving instruction......";;;
  print "Generating title......";;;
  instruction <- dict_getitem state "instruction";;
  response <- title_gen {[ py "instruction" := instruction ]};;
  print "Generating title complete!";;;
  print "Generating SEO......";;;
  seo_en <- getitem response "title_en";;
  print "Generating SEO complete!";;;
  title_en <- getitem response "title_en";;
  Ret (<[ py "title_en" := title_en ]> {[ py "seo_en" := seo_en ]}).

Definition summary_generator (self_llm : ChatOllama)
  (state : gmap pystr pyval) : prog (gmap pystr pyval) :=
  let summary_gen := chain summary_prompt self_llm in
  print "Receiving title......";;;
  print "Generating summary......";;;
  title_en <- dict_getitem state "title_en";;
  response <- summary_gen {[ py "title_en" := title_en ]};;
  print "Generating summary complete!";;;
  summary_en <- getitem response "summary_en";;
  Ret {[ py "summary_en" := summary_en ]}.

Definition body_generator (self_llm : ChatOllama)
  (state : gmap pystr pyval) : prog (gmap pystr pyval) :=
  let body_gen := chain body_prompt self_llm in
  print "Receiving title & summary......";;;
  print "Generating article body......";;;
  title_en <- dict_getitem state "title_en";;
  summary_en <- dict_getitem state "summary_en";;
  response <- body_gen (<[ py "title_en" := title_en ]>
                          {[ py "summary_en" := summary_en ]});;
  print "Generating article body complete!";;;
  body_en <- getitem response "body_en";;
  Ret {[ py "body_en" := body_en ]}.

Definition translator (state : gmap pystr pyval)
  : prog (gmap pystr pyval) :=
  title_en <- dict_getitem state "title_en";;
  summary_en <- dict_getitem state "summary_en";;
  body_en <- dict_getitem state "body_en";;
  print "Translating title & SEO to Indonesian......";;;
  title_id <- translate "en" "id" title_en;;
  let seo_id := title_id in
  print "Translating summary to Indonesian......";;;
  summary_id <- translate "en" "id" summary_en;;
  print "Translating article body to Indonesian......";;;
  body_id <- translate "en" "id" body_en;;
  print "Translation complete!";;;
  Ret (<[ py "title_id" := PyStr title_id ]>
       (<[ py "seo_id" := PyStr seo_id ]>
        (<[ py "summary_id" := PyStr summary_id ]>
         {[ py "body_id" := PyStr body_id ]}))).

Definition tags_generator (self_llm : ChatOllama)
  (state : gmap pystr pyval) : prog (gmap pystr pyval) :=
  let tags_gen := chain tags_prompt self_llm in
  print "Receiving title & summary......";;;
  print "Generating tags......";;;
  title_id <- dict_getitem state "title_id";;
  summary_id <- dict_getitem state "summary_id";;
  response <- tags_gen (<[ py "title_id" := title_id ]>
                          {[ py "summary_id" := summary_id ]});;
  print "Generating tags complete!";;;
  tags <- getitem response "tags";;
  Ret {[ py "tags" := tags ]}.

Definition _set_up_workflow (self : ArticleGenerator) : ArticleGenerator :=
  let w := workflow self in
  let w := add_node "title_generator" (title_generator (llm self)) w in
  let w := add_node "summary_generator" (summary_generator (llm self)) w in
  let w := add_node "body_generator" (body_generator (llm self)) w in
  let w := add_node "translator" translator w in
  let w := add_node "tags_generator" (tags_generator (llm self)) w in
  let w := set_entry_point "title_generator" w in
  let w := add_edge "title_generator" "summary_generator" w in
  let w := add_edge "summary_generator" "body_generator" w in
  let w := add_edge "body_generator" "translator" w in
  let w := add_edge "translator" "tags_generator" w in
  {| workflow := w; llm := llm self |}.

(** [ArticleGenerator(llm)] *)
Definition __init__ (llm : ChatOllama) : ArticleGenerator :=
  _set_up_workflow {| workflow := new GraphState; llm := llm |}.

Definition generate_article (self : ArticleGenerator) (instruction : pyval)
  : prog (gmap pystr pyval) :=
  app <- compile (workflow self);;
  result <- invoke app {[ py "instruction" := instruction ]};;
  Ret result.

End Generator.
End generation.

(** ** api.py *)

Module api.
Import generation.

(** [llm = ChatOllama(model="llama3", format="json", temperature=1.2)];
    the float literal 1.2 is 0x1.3333333333333p+0. *)
Definition llm : ChatOllama := {|
  model := py "llama3";
  format := py "json";
  temperature := S754_finite false 5404319552844595 (-52)
|}.

Section Handler.

Variable py_str : pyval -> pystr.
Variable parse_json : pystr -> option pyval.

Definition classify_texts (input_text : pyval) : prog (gmap pystr pyval) :=
  LogInfo (py "Request received successfully!") (Ret tt);;;
  validate_string input_text;;;
  try_except
    (let generator := __init__ py_str parse_json llm in
     article <- generate_article generator input_text;;
     Ret article)
    (fun e =>
       LogError (py "Error during article generation: ") e (Ret tt);;;
       Raise (HTTPException 500 (py "Internal server error"))).

End Handler.
End api.

(** * Specification vocabulary *)

Import langchain langgraph generation api.

(** ** What a trace shows *)

Definition is_llm_call (e : event) : bool :=
  match e with EvLLM _ _ _ => true | _ => false end.

Definition is_translate_call (e : event) : bool :=
  match e with EvTranslate _ _ _ _ => true | _ => false end.

Definition llm_calls (tr : trace) : trace := List.filter is_llm_call tr.

Definition translate_calls (tr : trace) : trace :=
  List.filter is_translate_call tr.

(** The calls that leave the process. *)
Definition external_calls (tr : trace) : trace :=
  List.filter (fun e => is_llm_call e || is_translate_call e) tr.

(** A program that calls the chat model at most [n] times and the
    translation service at most [m] times, whatever the answers. *)
Inductive calls_bounded {A : Type} : nat -> nat -> prog A -> Prop :=
| cb_ret n m a : calls_bounded n m (Ret a)
| cb_raise n m e : calls_bounded n m (Raise e)
| cb_print n m msg k :
    calls_bounded n m k -> calls_bounded n m (Print msg k)
| cb_log_info n m msg k :
    calls_bounded n m k -> calls_bounded n m (LogInfo msg k)
| cb_log_error n m msg e k :
    calls_bounded n m k -> calls_bounded n m (LogError msg e k)
| cb_llm n m c prompt k :
    (forall r, calls_bounded n m (k r)) ->
    calls_bounded (S n) m (CallLLM c prompt k)
| cb_translate n m src tgt text k :
    (forall r, calls_bounded n m (k r)) ->
    calls_bounded n (S m) (CallTranslate src tgt text k).

(** The log record and the response of the handler's [except] branch. *)
Definition request_received : event :=
  EvLogInfo (py "Request received successfully!").

Definition generation_failed (e : exn) : event :=
  EvLogError (py "Error during article generation: ") e.

Definition internal_server_error : exn :=
  HTTPException 500 (py "Internal server error").

(** ** The pipeline as the spec describes it: an ordered list of stage
    functions, each one's result merged into the running state. *)

Section Sequential.

Variable py_str : pyval -> pystr.
Variable parse_json : pystr -> option pyval.

Definition stages (c : ChatOllama) : list node_fn :=
  [title_generator py_str parse_json c;
   summary_generator py_str parse_json c;
   body_generator py_str parse_json c;
   translator;
   tags_generator py_str parse_json c].

Fixpoint run_stages (fs : list node_fn) (state : gmap pystr pyval)
  : prog (gmap pystr pyval) :=
  match fs with
  | [] => Ret state
  | f :: fs' => update <- f state;; run_stages fs' (update ∪ state)
  end.

Definition sequential_pipeline (c : ChatOllama) (instruction : pyval)
  : prog (gmap pystr pyval) :=
  run_stages (stages c) {[ py "instruction" := instruction ]}.

End Sequential.

(** ** The executor as a transition system *)

Record config : Type := Config {
  tasks : list pystr;
  state : gmap pystr pyval;
  log : trace
}.

(** One step of the executor's loop, in a world [w]: the tasks of [c] run
    to completion and leave [c']. *)
Definition step (w : services) (g : StateGraph) (c c' : config) : Prop :=
  tasks c <> [] /\
  run (superstep g (tasks c) (state c)) w (log c)
  = (log c', inr (tasks c', state c')).

Definition initial (app : CompiledGraph) (input : gmap pystr pyval)
  (tr0 : trace) : config :=
  Config [entry app] (restrict (schema (builder app)) input) tr0.

(** The configurations a run of [app.invoke(input)] goes through. *)
Definition reachable (w : services) (app : CompiledGraph)
  (input : gmap pystr pyval) (tr0 : trace) (c : config) : Prop :=
  rtc (step w (builder app)) (initial app input tr0) c.

(** The states of a run of the article workflow, stage by stage. *)
Definition state1 (i : pyval) : gmap pystr pyval :=
  {[ py "instruction" := i ]}.
Definition state2 (i t : pyval) : gmap pystr pyval :=
  <[ py "title_en" := t ]> (<[ py "seo_en" := t ]> (state1 i)).
Definition state3 (i t s : pyval) : gmap pystr pyval :=
  <[ py "summary_en" := s ]> (state2 i t).
Definition state4 (i t s b : pyval) : gmap pystr pyval :=
  <[ py "body_en" := b ]> (state3 i t s).
Definition state5 (i t s b : pyval) (ti si bi : pystr)
  : gmap pystr pyval :=
  <[ py "title_id" := PyStr ti ]>
    (<[ py "seo_id" := PyStr ti ]>
       (<[ py "summary_id" := PyStr si ]>
          (<[ py "body_id" := PyStr bi ]> (state4 i t s b)))).
Definition state6 (i t s b : pyval) (ti si bi : pystr) (g : pyval)
  : gmap pystr pyval :=
  <[ py "tags" := g ]> (state5 i t s b ti si bi).

(** The three calls of the translation stage. *)
Definition three_translations (t s b : pyval) (ti si bi : pystr) : trace :=
  [EvTranslate (py "en") (py "id") t (inr ti);
   EvTranslate (py "en") (py "id") s (inr si);
   EvTranslate (py "en") (py "id") b (inr bi)].

(** Where a run of the article workflow can be: about to run one of the
    five stages, or finished, with the state and the calls made so far. *)
Inductive at_stage (i : pyval) (tr0 : trace) : config -> Prop :=
| at_title :
    at_stage i tr0 (Config [py "title_generator"] (state1 i) tr0)
| at_summary t tr :
    translate_calls tr = translate_calls tr0 ->
    length (llm_calls tr) = (1 + length (llm_calls tr0))%nat ->
    at_stage i tr0 (Config [py "summary_generator"] (state2 i t) tr)
| at_body t s tr :
    translate_calls tr = translate_calls tr0 ->
    length (llm_calls tr) = (2 + length (llm_calls tr0))%nat ->
    at_stage i tr0 (Config [py "body_generator"] (state3 i t s) tr)
| at_translator t s b tr :
    translate_calls tr = translate_calls tr0 ->
    length (llm_calls tr) = (3 + length (llm_calls tr0))%nat ->
    at_stage i tr0 (Config [py "translator"] (state4 i t s b) tr)
| at_tags t s b ti si bi tr :
    translate_calls tr
    = translate_calls tr0 ++ three_translations t s b ti si bi ->
    length (llm_calls tr) = (3 + length (llm_calls tr0))%nat ->
    at_stage i tr0
      (Config [py "tags_generator"] (state5 i t s b ti si bi) tr)
| at_end t s b ti si bi g tr :
    translate_calls tr
    = translate_calls tr0 ++ three_translations t s b ti si bi ->
    length (llm_calls tr) = (4 + length (llm_calls tr0))%nat ->
    at_stage i tr0 (Config [] (state6 i t s b ti si bi g) tr).

(** ** Sample worlds *)

(** A parser for texts of the shape [key=value]. *)
Fixpoint split_at (sep : N) (s : pystr) : option (pystr * pystr) :=
  match s with
  | [] => None
  | c :: s' =>
      if (c =? sep)%N then Some ([], s')
      else match split_at sep s' with
           | Some (a, b) => Some (c :: a, b)
           | None => None
           end
  end.

Definition sample_parse (raw : pystr) : option pyval :=
  match split_at 61 raw with
  | Some (k, v) => Some (PyDict {[ k := PyStr v ]})
  | None => None
  end.

Definition sample_str (v : pyval) : pystr := py "?".

(** A chat model that answers by the number of requests it has seen. *)
Definition sample_llm (tr : trace) (c : ChatOllama) (prompt : pystr)
  : exn + pystr :=
  match length (llm_calls tr) with
  | 0%nat => inr (py "title_en=Urban Gardening")
  | 1%nat => inr (py "summary_en=Plants in town.")
  | 2%nat => inr (py "body_en=Grow things.")
  | _ => inr (py "tags=kebun")
  end.

Definition sample_translate (tr : trace) (src tgt : pystr) (text : pyval)
  : exn + pystr :=
  match text with
  | PyStr s => inr (py "id:" ++ s)
  | _ => inl (ServiceError (py "NotValidPayload") (py "text"))
  end.

Definition sample_world : services :=
  {| llm_answer := sample_llm; translate_answer := sample_translate |}.

(** A chat model whose answer is not JSON. *)
Definition babbling_world : services :=
  {| llm_answer := fun _ _ _ => inr (py "Sure! Here is your title");
     translate_answer := sample_translate |}.

(** A chat model whose JSON lacks the key the stage asks for. *)
Definition off_key_world : services :=
  {| llm_answer := fun _ _ _ => inr (py "headline=Urban Gardening");
     translate_answer := sample_translate |}.

(** A translation service that is down. *)
Definition offline_world : services :=
  {| llm_answer := sample_llm;
     translate_answer := fun _ _ _ _ =>
       inl (ServiceError (py "RequestError") (py "connection refused")) |}.

Definition sample_instruction : pystr := py "Write about urban gardening".

(** A chat model that always answers with a tag text that is one string
    and not a list. *)
Definition tags_world : services :=
  {| llm_answer := fun _ _ _ => inr (py "tags=kebun");
     translate_answer := sample_translate |}.

Definition sample_generator : ArticleGenerator :=
  __init__ sample_str sample_parse llm.

Definition sample_app : CompiledGraph :=
  {| builder := workflow sample_generator; entry := py "title_generator" |}.

(** The sample run of the pipeline, and the record it ends with. *)
Definition sample_run : trace * (exn + gmap pystr pyval) :=
  run (generate_article sample_generator (PyStr sample_instruction))
      sample_world [request_received].

Definition sample_final : gmap pystr pyval :=
  match sample_run.2 with inr st => st | inl _ => ∅ end.

(** The configuration after one more step, when the step succeeds. *)
Definition advance (w : services) (g : StateGraph) (cf : config) : config :=
  match run (superstep g (tasks cf) (state cf)) w (log cf) with
  | (tr, inr (ts, st)) => Config ts st tr
  | (_, inl _) => cf
  end.

Definition sample_config (n : nat) : config :=
  Nat.iter n (advance sample_world (workflow sample_generator))
    (initial sample_app {[ py "instruction" := PyStr sample_instruction ]}
       [request_received]).

(** A state in which only the two inputs of the tags stage are set. *)
Definition translated_state : gmap pystr pyval :=
  <[ py "title_id" := PyStr (py "Berkebun di Kota") ]>
    {[ py "summary_id" := PyStr (py "Tanaman di kota.") ]}.

(** ** Vocabulary for the further properties *)

Section Requests.

Variable py_str : pyval -> pystr.
Variable parse_json : pystr -> option pyval.

(** What formatting a template yields, as a value. *)
Fixpoint render (t : list piece) (kwargs : gmap pystr pyval)
  : exn + pystr :=
  match t with
  | [] => inr []
  | Lit text :: t' =>
      match render t' kwargs with
      | inl e => inl e
      | inr rest => inr (py text ++ rest)
      end
  | Var name :: t' =>
      match dict_subscript kwargs name with
      | inl e => inl e
      | inr v =>
          match render t' kwargs with
          | inl e => inl e
          | inr rest => inr (format_value py_str v ++ rest)
          end
      end
  end.

(** The text a prompt sends for the given inputs. *)
Definition prompt_text (prompt : PromptTemplate) (kwargs : gmap pystr pyval)
  : pystr :=
  match render (template prompt) kwargs with
  | inr text => text
  | inl _ => []
  end.

(** What a stage makes of the chat model's answer when it asks for the
    field [key]: the exception of the service, the parser's exception for
    a text that is not JSON, or the outcome of subscripting the parsed
    value. *)
Definition answer_field (key : string) (a : exn + pystr) : exn + pyval :=
  match a with
  | inl e => inl e
  | inr raw =>
      match parse_json raw with
      | None => inl (OutputParserException raw)
      | Some v => subscript v key
      end
  end.

(** Services under which every stage succeeds: each answer of the chat
    model parses to a dictionary that has the four keys the stages ask
    for, and every translation returns. *)
Definition cooperative (w : services) : Prop :=
  (forall tr c prompt, exists raw d,
      llm_answer w tr c prompt = inr raw /\
      parse_json raw = Some (PyDict d) /\
      is_Some (d !! py "title_en") /\ is_Some (d !! py "summary_en") /\
      is_Some (d !! py "body_en") /\ is_Some (d !! py "tags")) /\
  (forall tr src tgt text, exists translated,
      translate_answer w tr src tgt text = inr translated).

End Requests.

(** A program that raises [e] without having called a service. *)
Definition fails_before_calls {A : Type} (p : prog A) (e : exn) : Prop :=
  forall w tr,
    (run p w tr).2 = inl e /\
    external_calls (run p w tr).1 = external_calls tr.

(** An event that, if it is a call, goes to the chat model [c] or asks
    for a translation from English to Indonesian. *)
Definition well_addressed (c : ChatOllama) (e : event) : Prop :=
  match e with
  | EvLLM c' _ _ => c' = c
  | EvTranslate src tgt _ _ => src = py "en" /\ tgt = py "id"
  | _ => True
  end.

(** A program all of whose calls, whatever the answers, are of this
    kind. *)
Inductive addresses {A : Type} (c : ChatOllama) : prog A -> Prop :=
| ad_ret a : addresses c (Ret a)
| ad_raise e : addresses c (Raise e)
| ad_print msg k : addresses c k -> addresses c (Print msg k)
| ad_log_info msg k : addresses c k -> addresses c (LogInfo msg k)
| ad_log_error msg e k : addresses c k -> addresses c (LogError msg e k)
| ad_llm prompt k :
    (forall r, addresses c (k r)) -> addresses c (CallLLM c prompt k)
| ad_translate text k :
    (forall r, addresses c (k r)) ->
    addresses c (CallTranslate (py "en") (py "id") text k).

(** A parser that finds the same text under each of the four keys, and a
    world that always answers and always translates. *)
Definition generous_parse (raw : pystr) : option pyval :=
  Some (PyDict (<[ py "title_en" := PyStr raw ]>
                (<[ py "summary_en" := PyStr raw ]>
                 (<[ py "body_en" := PyStr raw ]>
                  {[ py "tags" := PyList [PyStr raw] ]})))).

Definition generous_world : services :=
  {| llm_answer := fun _ _ _ => inr (py "kebun");
     translate_answer := fun _ _ _ _ => inr (py "kebun") |}.

(** A state without any field. *)
Definition blank_state : gmap pystr pyval := ∅.

(** * Verification *)

Arguments py : simpl never.

(** ** Literals *)

Lemma ascii_of_N_of_ascii_list (l : list ascii) :
  List.map ascii_of_N (List.map N_of_ascii l) = l.
Proof.
  induction l as [|c l IH]; simpl; [done|].
  by rewrite ascii_N_embedding, IH.
Qed.

(** Distinct literals of the source are distinct Python strings. *)
Lemma py_inj : Inj (=) (=) py.
Proof.
  intros a b H. unfold py in H.
  apply (f_equal (List.map ascii_of_N)) in H.
  rewrite !ascii_of_N_of_ascii_list in H.
  apply (f_equal string_of_list_ascii) in H.
  by rewrite !string_of_list_ascii_of_string in H.
Qed.

Ltac py_ne :=
  let H := fresh in intros H; apply py_inj in H; discriminate H.
#[local] Hint Extern 1 (py _ <> py _) => py_ne : core.

(** ** The interpreter *)

Lemma run_bind {A B} (p : prog A) (f : A -> prog B) w tr :
  run (bind p f) w tr =
  match run p w tr with
  | (tr', inr a) => run (f a) w tr'
  | (tr', inl e) => (tr', inl e)
  end.
Proof. revert tr; induction p; intros; simpl; auto. Qed.

Lemma run_try_except {A} (p : prog A) (h : exn -> prog A) w tr :
  run (try_except p h) w tr =
  match run p w tr with
  | (tr', inr a) => (tr', inr a)
  | (tr', inl e) => run (h e) w tr'
  end.
Proof. revert tr; induction p; intros; simpl; auto. Qed.

Lemma run_answer {A} (r : exn + A) w tr : run (answer r) w tr = (tr, r).
Proof. by destruct r. Qed.

(** A run only ever adds to the trace. *)
Lemma run_extends {A} (p : prog A) w tr :
  exists evs, (run p w tr).1 = tr ++ evs.
Proof.
  revert tr; induction p as [| |msg k IH|msg k IH|msg e k IH
                             |c prompt k IH|src tgt text k IH]; intros tr;
    cbn [run]; cbv zeta.
  1,2: by exists []; rewrite app_nil_r.
  1-3: match goal with
       | |- context [run _ _ (?t ++ ?evs)] =>
           destruct (IH (t ++ evs)) as [evs' E];
           rewrite E, <- app_assoc; by eexists
       end.
  all: match goal with
       | |- context [run (_ ?r) _ (?t ++ ?evs)] =>
           destruct (IH r (t ++ evs)) as [evs' E];
           rewrite E, <- app_assoc; by eexists
       end.
Qed.

(** ** Counting calls *)

Lemma llm_calls_app tr1 tr2 :
  llm_calls (tr1 ++ tr2) = llm_calls tr1 ++ llm_calls tr2.
Proof. apply List.filter_app. Qed.

Lemma translate_calls_app tr1 tr2 :
  translate_calls (tr1 ++ tr2) = translate_calls tr1 ++ translate_calls tr2.
Proof. apply List.filter_app. Qed.

Lemma external_calls_app tr1 tr2 :
  external_calls (tr1 ++ tr2) = external_calls tr1 ++ external_calls tr2.
Proof. apply List.filter_app. Qed.

Lemma calls_bounded_mono {A} n m n' m' (p : prog A) :
  calls_bounded n m p -> (n <= n')%nat -> (m <= m')%nat ->
  calls_bounded n' m' p.
Proof.
  intros H. revert n' m'.
  induction H; intros n' m' Hn Hm; try (constructor; auto; fail).
  - destruct n' as [|n']; [lia|]. constructor. intros r. apply H0; lia.
  - destruct m' as [|m']; [lia|]. constructor. intros r. apply H0; lia.
Qed.

Lemma calls_bounded_bind {A B} n1 m1 n2 m2 (p : prog A) (f : A -> prog B) :
  calls_bounded n1 m1 p -> (forall a, calls_bounded n2 m2 (f a)) ->
  calls_bounded (n1 + n2) (m1 + m2) (bind p f).
Proof.
  intros H Hf. induction H; simpl; try (constructor; auto; fail).
  - eapply calls_bounded_mono; [apply Hf|lia..].
Qed.

Lemma calls_bounded_run {A} n m (p : prog A) w tr :
  calls_bounded n m p ->
  (length (llm_calls (run p w tr).1) <= length (llm_calls tr) + n)%nat /\
  (length (translate_calls (run p w tr).1)
   <= length (translate_calls tr) + m)%nat.
Proof.
  intros H. revert tr.
  induction H as [| |n m msg k _ IH|n m msg k _ IH|n m msg e k _ IH
                  |n m c prompt k _ IH|n m src tgt text k _ IH];
    intros tr; cbn [run]; cbv zeta; [simpl; lia..| | | | |].
  1-3: match goal with
       | |- context [run _ _ (?t ++ ?evs)] =>
           destruct (IH (t ++ evs)) as [H1 H2]
       end;
       rewrite llm_calls_app, translate_calls_app, length_app in *;
       simpl in *; lia.
  all: match goal with
       | |- context [run (_ ?r) _ (?t ++ ?evs)] =>
           destruct (IH r (t ++ evs)) as [H1 H2]
       end;
       rewrite llm_calls_app, translate_calls_app, length_app in *;
       simpl in *; lia.
Qed.

(** ** The stages, one by one *)

Section Stages.

Variable py_str : pyval -> pystr.
Variable parse_json : pystr -> option pyval.

(** Formatting a prompt calls nothing. *)
Lemma format_pieces_pure t kwargs :
  exists r, forall w tr, run (format_pieces py_str t kwargs) w tr = (tr, r).
Proof.
  induction t as [|[text|name] t [r IH]]; simpl.
  - by eexists.
  - destruct r as [e|rest]; eexists; intros; rewrite run_bind, IH; done.
  - unfold dict_getitem.
    destruct (dict_subscript kwargs name) as [e|v]; simpl.
    + by eexists.
    + destruct r as [e|rest]; eexists; intros; rewrite run_bind, IH; done.
Qed.

(** A chain either fails to format its prompt, or makes one call to the
    chat model and parses the answer. *)
Lemma run_invoke_chain prompt c kwargs :
  exists r, forall w tr,
  run (invoke_chain py_str parse_json prompt c kwargs) w tr =
  match r with
  | inl e => (tr, inl e)
  | inr text =>
      let a := llm_answer w tr c text in
      (tr ++ [EvLLM c text a],
       match a with
       | inl e => inl e
       | inr raw => match parse_json raw with
                    | Some v => inr v
                    | None => inl (OutputParserException raw)
                    end
       end)
  end.
Proof.
  destruct (format_pieces_pure (template prompt) kwargs) as [r Hr].
  exists r. intros w tr. unfold invoke_chain. rewrite run_bind, Hr.
  destruct r as [e|text]; [done|]. cbn [run bind]. cbv zeta.
  destruct (llm_answer w tr c text) as [e|raw]; cbn; [done|].
  by destruct (parse_json raw).
Qed.

End Stages.

(** Take a run apart, call by call. *)
Ltac run_inv H :=
  unfold dict_getitem, getitem in H;
  repeat first
    [ discriminate H
    | progress cbn [run bind print translate fst snd] in H
    | progress cbv zeta in H
    | rewrite run_bind in H
    | rewrite run_answer in H
    | match type of H with
      | context [run (invoke_chain ?f ?g ?p ?c ?k) _ _] =>
          let r := fresh "r" in
          let Hr := fresh "Hr" in
          destruct (run_invoke_chain f g p c k) as [r Hr];
          rewrite Hr in H; clear Hr
      end
    | match type of H with
      | context [match ?x with _ => _ end] =>
          lazymatch x with
          | context [match _ with _ => _ end] => fail
          | _ => destruct x eqn:?
          end
      end ].

Section StageRuns.

Variable py_str : pyval -> pystr.
Variable parse_json : pystr -> option pyval.

Lemma dict_subscript_inr (d : gmap pystr pyval) key v :
  dict_subscript d key = inr v <-> d !! py key = Some v.
Proof.
  unfold dict_subscript. destruct (d !! py key); split; congruence.
Qed.

Ltac finish_inv H :=
  injection H as <- <-;
  repeat match goal with
         | E : dict_subscript _ _ = inr _ |- _ =>
             apply dict_subscript_inr in E
         end;
  rewrite <- ?app_assoc; cbn [app];
  repeat eexists; eauto.

Lemma title_generator_inv c st w tr tr' upd :
  run (title_generator py_str parse_json c st) w tr = (tr', inr upd) ->
  exists instr prompt raw v,
    st !! py "instruction" = Some instr /\
    upd = <[ py "title_en" := v ]> {[ py "seo_en" := v ]} /\
    tr' = tr ++ [EvPrint (py "Receiving instruction......");
                 EvPrint (py "Generating title......");
                 EvLLM c prompt (inr raw);
                 EvPrint (py "Generating title complete!");
                 EvPrint (py "Generating SEO......");
                 EvPrint (py "Generating SEO complete!")].
Proof. unfold title_generator. intros H. run_inv H. finish_inv H. Qed.

Lemma summary_generator_inv c st w tr tr' upd :
  run (summary_generator py_str parse_json c st) w tr = (tr', inr upd) ->
  exists t prompt raw v,
    st !! py "title_en" = Some t /\
    upd = {[ py "summary_en" := v ]} /\
    tr' = tr ++ [EvPrint (py "Receiving title......");
                 EvPrint (py "Generating summary......");
                 EvLLM c prompt (inr raw);
                 EvPrint (py "Generating summary complete!")].
Proof. unfold summary_generator. intros H. run_inv H. finish_inv H. Qed.

Lemma body_generator_inv c st w tr tr' upd :
  run (body_generator py_str parse_json c st) w tr = (tr', inr upd) ->
  exists t s prompt raw v,
    st !! py "title_en" = Some t /\
    st !! py "summary_en" = Some s /\
    upd = {[ py "body_en" := v ]} /\
    tr' = tr ++ [EvPrint (py "Receiving title & summary......");
                 EvPrint (py "Generating article body......");
                 EvLLM c prompt (inr raw);
                 EvPrint (py "Generating article body complete!")].
Proof. unfold body_generator. intros H. run_inv H. finish_inv H. Qed.

Lemma translator_inv st w tr tr' upd :
  run (translator st) w tr = (tr', inr upd) ->
  exists t s b ti si bi,
    st !! py "title_en" = Some t /\
    st !! py "summary_en" = Some s /\
    st !! py "body_en" = Some b /\
    upd = <[ py "title_id" := PyStr ti ]>
            (<[ py "seo_id" := PyStr ti ]>
               (<[ py "summary_id" := PyStr si ]>
                  {[ py "body_id" := PyStr bi ]})) /\
    tr' = tr ++ [EvPrint (py "Translating title & SEO to Indonesian......");
                 EvTranslate (py "en") (py "id") t (inr ti);
                 EvPrint (py "Translating summary to Indonesian......");
                 EvTranslate (py "en") (py "id") s (inr si);
                 EvPrint (py "Translating article body to Indonesian......");
                 EvTranslate (py "en") (py "id") b (inr bi);
                 EvPrint (py "Translation complete!")].
Proof. unfold translator. intros H. run_inv H. finish_inv H. Qed.

Lemma tags_generator_inv c st w tr tr' upd :
  run (tags_generator py_str parse_json c st) w tr = (tr', inr upd) ->
  exists ti si prompt raw v,
    st !! py "title_id" = Some ti /\
    st !! py "summary_id" = Some si /\
    upd = {[ py "tags" := v ]} /\
    tr' = tr ++ [EvPrint (py "Receiving title & summary......");
                 EvPrint (py "Generating tags......");
                 EvLLM c prompt (inr raw);
                 EvPrint (py "Generating tags complete!")].
Proof. unfold tags_generator. intros H. run_inv H. finish_inv H. Qed.

(** *** How many calls a stage can make *)

Lemma calls_bounded_answer {A} (r : exn + A) : calls_bounded 0 0 (answer r).
Proof. destruct r; constructor. Qed.

Lemma calls_bounded_format t kwargs :
  calls_bounded 0 0 (format_pieces py_str t kwargs).
Proof.
  induction t as [|[text|name] t IH]; simpl.
  - constructor.
  - apply (calls_bounded_bind 0 0 0 0); [done|]. intros; constructor.
  - apply (calls_bounded_bind 0 0 0 0); [apply calls_bounded_answer|].
    intros v. apply (calls_bounded_bind 0 0 0 0); [done|].
    intros; constructor.
Qed.

Lemma calls_bounded_chain prompt c kwargs :
  calls_bounded 1 0 (invoke_chain py_str parse_json prompt c kwargs).
Proof.
  unfold invoke_chain.
  apply (calls_bounded_bind 0 0 1 0); [apply calls_bounded_format|].
  intros text. cbn [bind]. constructor. intros r.
  apply (calls_bounded_bind 0 0 0 0); [apply calls_bounded_answer|].
  intros raw. destruct (parse_json raw); constructor.
Qed.

End StageRuns.

(** ** The executor *)

Lemma restrict_empty (sch : list string) : restrict sch ∅ = ∅.
Proof. apply map_filter_empty. Qed.

Lemma restrict_insert (sch : list string) (k : string) (v : pyval)
  (m : gmap pystr pyval) :
  List.In k sch ->
  restrict sch (<[ py k := v ]> m) = <[ py k := v ]> (restrict sch m).
Proof.
  intros Hk. unfold restrict. apply map_filter_insert_True. simpl.
  apply list_elem_of_In, in_map, Hk.
Qed.

Lemma restrict_singleton (sch : list string) (k : string) (v : pyval) :
  List.In k sch -> restrict sch {[ py k := v ]} = {[ py k := v ]}.
Proof.
  intros Hk. rewrite <- insert_empty, restrict_insert, restrict_empty; done.
Qed.

(** A step with a single task runs that node and merges what it returns. *)
Lemma run_superstep_single g n f st w tr :
  lookup_node (nodes g) n = Some f ->
  run (superstep g [n] st) w tr =
  match run (f st) w tr with
  | (tr', inr upd) =>
      (tr', inr (next_tasks g [n], restrict (schema g) upd ∪ st))
  | (tr', inl e) => (tr', inl e)
  end.
Proof.
  intros Hf. unfold superstep. cbn [run_tasks]. rewrite Hf.
  rewrite !run_bind. destruct (run (f st) w tr) as [tr' [e|upd]]; [done|].
  cbn [run bind List.map merge_writes].
  rewrite dom_empty_L, (right_absorb_L ∅ (∩)), elements_empty.
  cbn [run bind merge_writes]. by rewrite (right_id_L ∅ (∪)).
Qed.

(** The loop of the executor follows the transition system. *)
Lemma loop_steps w g n ts st tr tr' st' :
  run (loop n g ts st) w tr = (tr', inr st') ->
  rtc (step w g) (Config ts st tr) (Config [] st' tr').
Proof.
  revert ts st tr. induction n as [|n IH]; intros ts st tr H.
  - destruct ts; simpl in H; [|discriminate]. by injection H as <- <-.
  - destruct ts as [|t ts]; [simpl in H; by injection H as <- <-|].
    cbn [loop] in H. rewrite run_bind in H.
    destruct (run (superstep g (t :: ts) st) w tr) as [tr1 [e|[ts1 st1]]] eqn:E;
      [discriminate|].
    eapply rtc_l; [|apply IH, H]. split; [done|]. exact E.
Qed.

Section Workflow.

Variable py_str : pyval -> pystr.
Variable parse_json : pystr -> option pyval.

Abbreviation generator := (__init__ py_str parse_json).

Lemma workflow_schema c : schema (workflow (generator c)) = GraphState.
Proof. reflexivity. Qed.

Lemma compile_workflow c :
  compile (workflow (generator c))
  = Ret {| builder := workflow (generator c);
           entry := py "title_generator" |}.
Proof. reflexivity. Qed.

Lemma node_title c :
  lookup_node (nodes (workflow (generator c))) (py "title_generator")
  = Some (title_generator py_str parse_json c).
Proof. reflexivity. Qed.

Lemma node_summary c :
  lookup_node (nodes (workflow (generator c))) (py "summary_generator")
  = Some (summary_generator py_str parse_json c).
Proof. reflexivity. Qed.

Lemma node_body c :
  lookup_node (nodes (workflow (generator c))) (py "body_generator")
  = Some (body_generator py_str parse_json c).
Proof. reflexivity. Qed.

Lemma node_translator c :
  lookup_node (nodes (workflow (generator c))) (py "translator")
  = Some translator.
Proof. reflexivity. Qed.

Lemma node_tags c :
  lookup_node (nodes (workflow (generator c))) (py "tags_generator")
  = Some (tags_generator py_str parse_json c).
Proof. reflexivity. Qed.

Lemma next_title c :
  next_tasks (workflow (generator c)) [py "title_generator"]
  = [py "summary_generator"].
Proof. reflexivity. Qed.

Lemma next_summary c :
  next_tasks (workflow (generator c)) [py "summary_generator"]
  = [py "body_generator"].
Proof. reflexivity. Qed.

Lemma next_body c :
  next_tasks (workflow (generator c)) [py "body_generator"]
  = [py "translator"].
Proof. reflexivity. Qed.

Lemma next_translator c :
  next_tasks (workflow (generator c)) [py "translator"]
  = [py "tags_generator"].
Proof. reflexivity. Qed.

Lemma next_tags c :
  next_tasks (workflow (generator c)) [py "tags_generator"] = [].
Proof. reflexivity. Qed.

End Workflow.

(** ** The article workflow, step by step *)

Ltac in_schema := repeat first [left; reflexivity | right].

Ltac unfold_states :=
  unfold state6, state5, state4, state3, state2, state1.

(** Looking a field up in one of the states of the workflow. *)
Ltac lookup_state :=
  unfold_states;
  repeat first
    [ rewrite lookup_insert_eq
    | rewrite lookup_insert_ne by py_ne
    | rewrite lookup_singleton_eq
    | rewrite lookup_singleton_ne by py_ne ];
  try done; eauto.

Ltac grow_state :=
  repeat match goal with
         | |- _ ⊆ insert _ _ _ => apply insert_subseteq_r; [lookup_state|]
         end;
  reflexivity.

Lemma run_bind_ret {A} (p : prog A) w tr :
  run (x <- p;; Ret x) w tr = run p w tr.
Proof. rewrite run_bind. by destruct (run p w tr) as [tr' [e|a]]. Qed.

Lemma loop_single n g name f st w tr :
  lookup_node (nodes g) name = Some f ->
  run (loop (S n) g [name] st) w tr =
  match run (f st) w tr with
  | (tr', inr upd) =>
      run (loop n g (next_tasks g [name]) (restrict (schema g) upd ∪ st))
          w tr'
  | (tr', inl e) => (tr', inl e)
  end.
Proof.
  intros Hf. cbn [loop]. rewrite run_bind, (run_superstep_single _ _ _ _ _ _ Hf).
  by destruct (run (f st) w tr) as [tr' [e|upd]].
Qed.

Section Article.

Variable py_str : pyval -> pystr.
Variable parse_json : pystr -> option pyval.

Abbreviation generator := (__init__ py_str parse_json).

(** The compiled article workflow. *)
Abbreviation article_app c :=
  {| builder := workflow (generator c); entry := py "title_generator" |}.

Lemma run_generate_article c i w tr :
  run (generate_article (generator c) i) w tr
  = run (invoke (article_app c) {[ py "instruction" := i ]}) w tr.
Proof.
  unfold generate_article. rewrite compile_workflow. cbn [bind].
  apply run_bind_ret.
Qed.

Lemma initial_article c i tr0 :
  initial (article_app c) {[ py "instruction" := i ]} tr0
  = Config [py "title_generator"] (state1 i) tr0.
Proof.
  unfold initial. cbn [builder entry]. rewrite workflow_schema.
  rewrite restrict_singleton by in_schema. done.
Qed.

(** One step of the workflow leads from a stage to the next one, and
    only adds fields to the state. *)
Lemma at_stage_step c w i tr0 cf cf' :
  at_stage i tr0 cf -> step w (workflow (generator c)) cf cf' ->
  at_stage i tr0 cf' /\ state cf ⊆ state cf'.
Proof.
  destruct cf' as [ts' st' tr']. intros Hat [Hne Hrun].
  remember (workflow (generator c)) as g eqn:Hg.
  destruct Hat; cbn [tasks state log] in *; subst g; [| | | | |done].
  - rewrite (run_superstep_single _ _ _ _ _ _ (node_title _ _ c)) in Hrun.
    destruct (run _ w tr0) as [tr1 [e|upd]] eqn:E; [discriminate|].
    rewrite workflow_schema, next_title in Hrun.
    injection Hrun as <- <- <-.
    apply title_generator_inv in E as (? & ? & ? & v & _ & -> & ->).
    rewrite restrict_insert, restrict_singleton by in_schema.
    rewrite <- insert_union_l, <- insert_union_singleton_l.
    split; [|grow_state].
    apply (at_summary _ _ v);
      rewrite ?translate_calls_app, ?llm_calls_app, ?length_app; simpl;
      [by rewrite app_nil_r|lia].
  - rewrite (run_superstep_single _ _ _ _ _ _ (node_summary _ _ c)) in Hrun.
    destruct (run _ w tr) as [tr1 [e|upd]] eqn:E; [discriminate|].
    rewrite workflow_schema, next_summary in Hrun.
    injection Hrun as <- <- <-.
    apply summary_generator_inv in E as (? & ? & ? & v & _ & -> & ->).
    rewrite restrict_singleton by in_schema.
    rewrite <- insert_union_singleton_l.
    split; [|grow_state].
    apply (at_body _ _ t v);
      rewrite ?translate_calls_app, ?llm_calls_app, ?length_app; simpl;
      [by rewrite app_nil_r|lia].
  - rewrite (run_superstep_single _ _ _ _ _ _ (node_body _ _ c)) in Hrun.
    destruct (run _ w tr) as [tr1 [e|upd]] eqn:E; [discriminate|].
    rewrite workflow_schema, next_body in Hrun.
    injection Hrun as <- <- <-.
    apply body_generator_inv in E as (? & ? & ? & ? & v & _ & _ & -> & ->).
    rewrite restrict_singleton by in_schema.
    rewrite <- insert_union_singleton_l.
    split; [|grow_state].
    apply (at_translator _ _ t s v);
      rewrite ?translate_calls_app, ?llm_calls_app, ?length_app; simpl;
      [by rewrite app_nil_r|lia].
  - rewrite (run_superstep_single _ _ _ _ _ _ (node_translator _ _ c)) in Hrun.
    destruct (run _ w tr) as [tr1 [e|upd]] eqn:E; [discriminate|].
    rewrite workflow_schema, next_translator in Hrun.
    injection Hrun as <- <- <-.
    apply translator_inv in E
      as (t' & s' & b' & ti & si & bi & Ht & Hs & Hb & -> & ->).
    assert (t' = t) as -> by (revert Ht; lookup_state; congruence).
    assert (s' = s) as -> by (revert Hs; lookup_state; congruence).
    assert (b' = b) as -> by (revert Hb; lookup_state; congruence).
    clear Ht Hs Hb.
    rewrite !restrict_insert, restrict_singleton by in_schema.
    rewrite <- !insert_union_l, <- insert_union_singleton_l.
    split; [|grow_state].
    apply (at_tags _ _ t s b ti si bi);
      rewrite ?translate_calls_app, ?llm_calls_app, ?length_app; simpl;
      [by f_equal|lia].
  - rewrite (run_superstep_single _ _ _ _ _ _ (node_tags _ _ c)) in Hrun.
    destruct (run _ w tr) as [tr1 [e|upd]] eqn:E; [discriminate|].
    rewrite workflow_schema, next_tags in Hrun.
    injection Hrun as <- <- <-.
    apply tags_generator_inv in E as (? & ? & ? & ? & v & _ & _ & -> & ->).
    rewrite restrict_singleton by in_schema.
    rewrite <- insert_union_singleton_l.
    split; [|grow_state].
    apply (at_end _ _ t s b ti si bi v);
      rewrite ?translate_calls_app, ?llm_calls_app, ?length_app; simpl;
      [by rewrite app_nil_r|lia].
Qed.

Lemma at_stage_steps c w i tr0 cf cf' :
  at_stage i tr0 cf -> rtc (step w (workflow (generator c))) cf cf' ->
  at_stage i tr0 cf' /\ state cf ⊆ state cf'.
Proof.
  intros Hat Hsteps. induction Hsteps as [cf|cf cf1 cf2 H1 _ IH]; [done|].
  destruct (at_stage_step _ _ _ _ _ _ Hat H1) as [Hat1 Hsub].
  destruct (IH Hat1) as [Hat2 Hsub']. split; [done|]. by etrans.
Qed.

(** Every configuration of a run of the article workflow is at one of
    its stages. *)
Lemma reachable_at_stage c w i tr0 cf :
  reachable w (article_app c) {[ py "instruction" := i ]} tr0 cf ->
  at_stage i tr0 cf.
Proof.
  unfold reachable. rewrite initial_article. cbn [builder]. intros H.
  eapply at_stage_steps; [constructor|exact H].
Qed.

(** A run that completes went through all five stages. *)
Lemma completed_run c i w tr tr' st :
  run (generate_article (generator c) i) w tr = (tr', inr st) ->
  exists t s b ti si bi g,
    st = state6 i t s b ti si bi g /\
    translate_calls tr'
    = translate_calls tr ++ three_translations t s b ti si bi /\
    length (llm_calls tr') = (4 + length (llm_calls tr))%nat.
Proof.
  rewrite run_generate_article. unfold invoke. cbn [builder entry].
  rewrite workflow_schema, restrict_singleton by in_schema.
  intros H. apply loop_steps in H.
  eapply at_stage_steps in H as [H _]; [|apply at_title].
  inversion H; subst. by repeat eexists.
Qed.

End Article.

(** ** Validation *)

Lemma truthy_str s : truthy (PyStr s) = true <-> s <> [].
Proof. destruct s; simpl; split; congruence. Qed.

Lemma strip_nil : strip [] = [].
Proof. reflexivity. Qed.

Lemma validate_string_ok s :
  strip s <> [] -> validate_string (PyStr s) = Ret tt.
Proof.
  intros Hs. unfold validate_string.
  assert (s <> []) as Hne by (intros ->; by apply Hs).
  apply truthy_str in Hne. apply truthy_str in Hs.
  by rewrite Hne, Hs.
Qed.

Lemma validate_string_not_str v :
  isinstance_str v = false ->
  validate_string v = Raise (HTTPException 400 (py "Input must be a string")).
Proof.
  intros Hv. unfold validate_string. rewrite Hv.
  by destruct (truthy v).
Qed.

Lemma validate_string_empty :
  validate_string (PyStr [])
  = Raise (HTTPException 400 (py "Input must be a string")).
Proof. reflexivity. Qed.

Lemma validate_string_blank s :
  s <> [] -> strip s = [] ->
  validate_string (PyStr s)
  = Raise (HTTPException 400 (py "Input cannot be empty or just whitespace")).
Proof.
  intros Hne Hs. unfold validate_string. rewrite Hs.
  apply truthy_str in Hne. by rewrite Hne.
Qed.

Section Claims.

Variable py_str : pyval -> pystr.
Variable parse_json : pystr -> option pyval.

Abbreviation generator := (__init__ py_str parse_json).
Abbreviation handler := (classify_texts py_str parse_json).

(** ** The handler *)

(** With a valid instruction the handler is one run of the pipeline,
    after the log record, with the [except] branch around it. *)
Lemma run_classify_texts_valid s w :
  strip s <> [] ->
  run (handler (PyStr s)) w [] =
  match run (generate_article (generator llm) (PyStr s)) w [request_received]
  with
  | (tr, inr st) => (tr, inr st)
  | (tr, inl e) => (tr ++ [generation_failed e], inl internal_server_error)
  end.
Proof.
  intros Hs. unfold classify_texts. cbn [bind run app].
  rewrite (validate_string_ok _ Hs). cbn [bind].
  rewrite run_try_except, run_bind_ret.
  fold request_received.
  by destruct (run _ w [request_received]) as [tr [e|st]].
Qed.

(** With an input that fails validation the handler stops after the log
    record. *)
Lemma run_classify_texts_invalid v w e :
  validate_string v = Raise e ->
  run (handler v) w [] = ([request_received], inl e).
Proof.
  intros Hv. unfold classify_texts. cbn [bind run app]. by rewrite Hv.
Qed.

(** ** The executor and the list of stages *)

Lemma generate_article_sequential c i w tr :
  run (generate_article (generator c) i) w tr
  = run (sequential_pipeline py_str parse_json c i) w tr.
Proof.
  rewrite run_generate_article. unfold invoke, sequential_pipeline, stages.
  cbn [builder entry]. rewrite workflow_schema.
  rewrite restrict_singleton by in_schema.
  unfold recursion_limit. cbn [run_stages].
  rewrite (loop_single _ _ _ _ _ _ _ (node_title _ _ c)), run_bind.
  destruct (run (title_generator _ _ _ _) w tr) as [tr1 [e|u1]] eqn:E1;
    [done|].
  apply title_generator_inv in E1 as (? & ? & ? & t & _ & -> & _).
  rewrite workflow_schema, next_title.
  rewrite restrict_insert, restrict_singleton by in_schema.
  rewrite (loop_single _ _ _ _ _ _ _ (node_summary _ _ c)), run_bind.
  destruct (run (summary_generator _ _ _ _) w tr1) as [tr2 [e|u2]] eqn:E2;
    [done|].
  apply summary_generator_inv in E2 as (? & ? & ? & s & _ & -> & _).
  rewrite workflow_schema, next_summary.
  rewrite restrict_singleton by in_schema.
  rewrite (loop_single _ _ _ _ _ _ _ (node_body _ _ c)), run_bind.
  destruct (run (body_generator _ _ _ _) w tr2) as [tr3 [e|u3]] eqn:E3;
    [done|].
  apply body_generator_inv in E3 as (? & ? & ? & ? & b & _ & _ & -> & _).
  rewrite workflow_schema, next_body.
  rewrite restrict_singleton by in_schema.
  rewrite (loop_single _ _ _ _ _ _ _ (node_translator _ _ c)), run_bind.
  destruct (run (translator _) w tr3) as [tr4 [e|u4]] eqn:E4; [done|].
  apply translator_inv in E4
    as (? & ? & ? & ti & si & bi & _ & _ & _ & -> & _).
  rewrite workflow_schema, next_translator.
  rewrite !restrict_insert, restrict_singleton by in_schema.
  rewrite (loop_single _ _ _ _ _ _ _ (node_tags _ _ c)), run_bind.
  destruct (run (tags_generator _ _ _ _) w tr4) as [tr5 [e|u5]] eqn:E5;
    [done|].
  apply tags_generator_inv in E5 as (? & ? & ? & ? & g & _ & _ & -> & _).
  rewrite workflow_schema, next_tags.
  rewrite restrict_singleton by in_schema.
  reflexivity.
Qed.

(** ** How many calls a run can make *)

Ltac bounded :=
  unfold dict_getitem, getitem;
  cbn [bind print translate];
  lazymatch goal with
  | |- calls_bounded _ _ (Ret _) => constructor
  | |- calls_bounded _ _ (Raise _) => constructor
  | |- calls_bounded _ _ (Print _ _) => constructor; bounded
  | |- calls_bounded _ _ (CallTranslate _ _ _ _) =>
      constructor; intros ?; bounded
  | |- calls_bounded ?n ?m (bind (answer _) _) =>
      apply (calls_bounded_bind 0 0 n m);
      [apply calls_bounded_answer | intros ?; bounded]
  | |- calls_bounded (S ?n) ?m (bind (invoke_chain _ _ _ _ _) _) =>
      apply (calls_bounded_bind 1 0 n m);
      [apply calls_bounded_chain | intros ?; bounded]
  end.

Lemma calls_bounded_title c st :
  calls_bounded 1 0 (title_generator py_str parse_json c st).
Proof. unfold title_generator. bounded. Qed.

Lemma calls_bounded_summary c st :
  calls_bounded 1 0 (summary_generator py_str parse_json c st).
Proof. unfold summary_generator. bounded. Qed.

Lemma calls_bounded_body c st :
  calls_bounded 1 0 (body_generator py_str parse_json c st).
Proof. unfold body_generator. bounded. Qed.

Lemma calls_bounded_translator st : calls_bounded 0 3 (translator st).
Proof. unfold translator. bounded. Qed.

Lemma calls_bounded_tags c st :
  calls_bounded 1 0 (tags_generator py_str parse_json c st).
Proof. unfold tags_generator. bounded. Qed.

Lemma calls_bounded_sequential c i :
  calls_bounded 4 3 (sequential_pipeline py_str parse_json c i).
Proof.
  unfold sequential_pipeline, stages. cbn [run_stages].
  apply (calls_bounded_bind 1 0 3 3); [apply calls_bounded_title|intros ?].
  apply (calls_bounded_bind 1 0 2 3); [apply calls_bounded_summary|intros ?].
  apply (calls_bounded_bind 1 0 1 3); [apply calls_bounded_body|intros ?].
  apply (calls_bounded_bind 0 3 1 0); [apply calls_bounded_translator|intros ?].
  apply (calls_bounded_bind 1 0 0 0); [apply calls_bounded_tags|intros ?].
  constructor.
Qed.

(** No run of the pipeline, completed or not, calls the chat model more
    than four times or the translation service more than three times. *)
Lemma generate_article_calls c i w tr :
  (length (llm_calls (run (generate_article (generator c) i) w tr).1)
   <= length (llm_calls tr) + 4)%nat /\
  (length (translate_calls (run (generate_article (generator c) i) w tr).1)
   <= length (translate_calls tr) + 3)%nat.
Proof.
  rewrite generate_article_sequential.
  apply calls_bounded_run, calls_bounded_sequential.
Qed.

(** * The claims *)

(** C1. For every non-empty, non-whitespace instruction string the
    request handler invokes the pipeline exactly once: its run is the log
    record followed by one run of [generate_article], whose failure it
    turns into the internal error.  When the pipeline succeeds the
    handler returns the pipeline's record, which holds all ten fields of
    [GraphState], the instruction among them as it was given; that run
    made four calls to the chat model and three to the translation
    service, one per stage request. *)
Theorem C1_valid_instruction_runs_pipeline_once (s : pystr) (w : services) :
  s <> [] -> strip s <> [] ->
  match run (generate_article (generator llm) (PyStr s)) w [request_received]
  with
  | (tr, inr st) =>
      run (handler (PyStr s)) w [] = (tr, inr st) /\
      (forall k, List.In k GraphState -> is_Some (st !! py k)) /\
      st !! py "instruction" = Some (PyStr s) /\
      length (llm_calls tr) = 4%nat /\
      length (translate_calls tr) = 3%nat
  | (tr, inl e) =>
      run (handler (PyStr s)) w []
      = (tr ++ [generation_failed e], inl internal_server_error)
  end.
Proof.
  intros _ Hs. rewrite (run_classify_texts_valid s w Hs).
  destruct (run _ w [request_received]) as [tr [e|st]] eqn:E; [done|].
  apply completed_run in E
    as (t & sm & b & ti & si & bi & g & -> & Htr & Hllm).
  split; [done|]. split; [|split; [|split]].
  - intros k Hk. unfold GraphState in Hk. cbn [List.In] in Hk.
    repeat (destruct Hk as [<-|Hk]; [lookup_state|]). done.
  - lookup_state.
  - rewrite Hllm. reflexivity.
  - rewrite Htr. reflexivity.
Qed.

(** C2. For every input that is the empty string, a whitespace-only
    string, or not a string, the request handler fails with the client
    error (status 400) that [validate_string] raises, not with the
    internal error; its run consists of the log record alone, so the
    pipeline is not invoked and no external call is made.  The empty
    string and a whitespace-only string fail with the same kind of
    exception and the same status. *)
Theorem C2_invalid_input_fails_validation (v : pyval) (w : services) :
  (v = PyStr [] \/ (exists s, v = PyStr s /\ strip s = [])
   \/ isinstance_str v = false) ->
  exists detail,
    validate_string v = Raise (HTTPException 400 detail) /\
    run (handler v) w [] = ([request_received], inl (HTTPException 400 detail)) /\
    external_calls (run (handler v) w []).1 = [] /\
    HTTPException 400 detail <> internal_server_error.
Proof.
  intros Hv.
  assert (exists detail, validate_string v = Raise (HTTPException 400 detail))
    as [detail Hd].
  { destruct Hv as [->|[(s & -> & Hs)|Hv]].
    - eexists. apply validate_string_empty.
    - destruct s as [|c s].
      + eexists. apply validate_string_empty.
      + eexists. by apply validate_string_blank.
    - eexists. by apply validate_string_not_str. }
  exists detail. rewrite (run_classify_texts_invalid v w _ Hd).
  repeat split; done.
Qed.

(** C3. For every failure raised after validation succeeded, whatever
    the exception (the output parser's on malformed JSON, the [KeyError]
    of a missing key, the translation client's, or any other), the
    request handler logs it and raises the internal error, status 500
    with the fixed detail and nothing of the failure in it.  The outcome
    is an exception, so no record, partial or not, is returned; and the
    failed run called the chat model at most four times and the
    translation service at most three times, so no stage was tried
    again. *)
Theorem C3_pipeline_failure_is_internal_error
  (s : pystr) (w : services) (tr : trace) (e : exn) :
  s <> [] -> strip s <> [] ->
  run (generate_article (generator llm) (PyStr s)) w [request_received]
  = (tr, inl e) ->
  run (handler (PyStr s)) w []
  = (tr ++ [generation_failed e],
     inl (HTTPException 500 (py "Internal server error"))) /\
  (length (llm_calls tr) <= 4)%nat /\
  (length (translate_calls tr) <= 3)%nat.
Proof.
  intros _ Hs E. rewrite (run_classify_texts_valid s w Hs), E.
  split; [done|].
  pose proof (generate_article_calls llm (PyStr s) w [request_received]) as H.
  rewrite E in H. exact H.
Qed.

(** C4. In every completed run of the pipeline the final state has
    [seo_en] equal to [title_en] and [seo_id] equal to [title_id]. *)
Theorem C4_seo_equals_title
  (c : ChatOllama) (i : pyval) (w : services) (tr tr' : trace)
  (st : gmap pystr pyval) :
  run (generate_article (generator c) i) w tr = (tr', inr st) ->
  (exists t, st !! py "title_en" = Some t /\ st !! py "seo_en" = Some t) /\
  (exists ti, st !! py "title_id" = Some ti /\ st !! py "seo_id" = Some ti).
Proof.
  intros E. apply completed_run in E
    as (t & sm & b & ti & si & bi & g & -> & _ & _).
  split; [exists t|exists (PyStr ti)]; split; lookup_state.
Qed.

(** C5. In every configuration that a run of the compiled workflow goes
    through: when [summary_generator] is about to execute, [title_en] is
    set; when [body_generator] is, [title_en] and [summary_en] are set;
    when [translator] is, [body_en] is set; and when [tags_generator] is,
    [title_id] and [summary_id] are set. *)
Theorem C5_stage_ordering
  (c : ChatOllama) (app : CompiledGraph) (i : pyval) (w : services)
  (tr0 : trace) (cf : config) :
  compile (workflow (generator c)) = Ret app ->
  reachable w app {[ py "instruction" := i ]} tr0 cf ->
  (py "summary_generator" ∈ tasks cf ->
   is_Some (state cf !! py "title_en")) /\
  (py "body_generator" ∈ tasks cf ->
   is_Some (state cf !! py "title_en") /\
   is_Some (state cf !! py "summary_en")) /\
  (py "translator" ∈ tasks cf ->
   is_Some (state cf !! py "body_en")) /\
  (py "tags_generator" ∈ tasks cf ->
   is_Some (state cf !! py "title_id") /\
   is_Some (state cf !! py "summary_id")).
Proof.
  rewrite compile_workflow. intros [= <-] H.
  apply reachable_at_stage in H.
  destruct H; cbn [tasks state]; (split; [|split; [|split]]);
    intros Hin;
    first [ by apply elem_of_nil in Hin
          | apply list_elem_of_singleton, py_inj in Hin; discriminate Hin
          | split; lookup_state
          | lookup_state ].
Qed.

(** C6. No field of the state is deleted or changed once it is set.
    Each stage returns exactly the fields it computes: the title stage
    [title_en] and [seo_en], the summary stage [summary_en], the body
    stage [body_en], the translation stage [title_id], [seo_id],
    [summary_id] and [body_id], the tags stage [tags].  And along a run
    of the compiled workflow every field that is set in one
    configuration has the same value in every later one; in particular
    [instruction] keeps the value the run started with. *)
Theorem C6_state_only_grows
  (c : ChatOllama) (app : CompiledGraph) (i : pyval) (w : services)
  (tr0 : trace) (cf cf' : config) :
  compile (workflow (generator c)) = Ret app ->
  reachable w app {[ py "instruction" := i ]} tr0 cf ->
  rtc (step w (builder app)) cf cf' ->
  (forall st tr tr' upd,
      run (title_generator py_str parse_json c st) w tr = (tr', inr upd) ->
      dom upd = {[ py "title_en"; py "seo_en" ]}) /\
  (forall st tr tr' upd,
      run (summary_generator py_str parse_json c st) w tr = (tr', inr upd) ->
      dom upd = {[ py "summary_en" ]}) /\
  (forall st tr tr' upd,
      run (body_generator py_str parse_json c st) w tr = (tr', inr upd) ->
      dom upd = {[ py "body_en" ]}) /\
  (forall st tr tr' upd,
      run (translator st) w tr = (tr', inr upd) ->
      dom upd
      = {[ py "title_id"; py "seo_id"; py "summary_id"; py "body_id" ]}) /\
  (forall st tr tr' upd,
      run (tags_generator py_str parse_json c st) w tr = (tr', inr upd) ->
      dom upd = {[ py "tags" ]}) /\
  (forall k v, state cf !! k = Some v -> state cf' !! k = Some v) /\
  state cf !! py "instruction" = Some i /\
  state cf' !! py "instruction" = Some i.
Proof.
  rewrite compile_workflow. intros [= <-] Hcf Hsteps. cbn [builder] in Hsteps.
  apply reachable_at_stage in Hcf.
  destruct (at_stage_steps _ _ _ _ _ _ _ _ Hcf Hsteps) as [Hcf' Hsub].
  repeat match goal with |- _ /\ _ => split end.
  - intros st tr tr' upd E.
    apply title_generator_inv in E as (? & ? & ? & ? & _ & -> & _).
    rewrite dom_insert_L, dom_singleton_L. set_solver.
  - intros st tr tr' upd E.
    apply summary_generator_inv in E as (? & ? & ? & ? & _ & -> & _).
    by rewrite dom_singleton_L.
  - intros st tr tr' upd E.
    apply body_generator_inv in E as (? & ? & ? & ? & ? & _ & _ & -> & _).
    by rewrite dom_singleton_L.
  - intros st tr tr' upd E.
    apply translator_inv in E
      as (? & ? & ? & ? & ? & ? & _ & _ & _ & -> & _).
    rewrite !dom_insert_L, dom_singleton_L. set_solver.
  - intros st tr tr' upd E.
    apply tags_generator_inv in E as (? & ? & ? & ? & ? & _ & _ & -> & _).
    by rewrite dom_singleton_L.
  - intros k v Hk. eapply lookup_weaken; eauto.
  - destruct Hcf; cbn [state]; lookup_state.
  - destruct Hcf'; cbn [state]; lookup_state.
Qed.

(** C7. The translation stage makes exactly three translation calls,
    each from locale "en" to locale "id", of [title_en], [summary_en] and
    [body_en] in this order, and sets [seo_id] to the translated title
    without a call of its own.  This holds of every run of the stage that
    returns, and of every completed run of the pipeline, where these are
    the only translation calls; and no run of the pipeline, completed or
    not, makes a fourth translation call. *)
Theorem C7_three_translation_calls (c : ChatOllama) (w : services) :
  (forall st tr tr' upd,
      run (translator st) w tr = (tr', inr upd) ->
      exists t s b ti si bi,
        st !! py "title_en" = Some t /\
        st !! py "summary_en" = Some s /\
        st !! py "body_en" = Some b /\
        translate_calls tr'
        = translate_calls tr ++ three_translations t s b ti si bi /\
        upd !! py "title_id" = Some (PyStr ti) /\
        upd !! py "seo_id" = Some (PyStr ti) /\
        upd !! py "summary_id" = Some (PyStr si) /\
        upd !! py "body_id" = Some (PyStr bi)) /\
  (forall i tr tr' st,
      run (generate_article (generator c) i) w tr = (tr', inr st) ->
      exists t s b ti si bi,
        st !! py "title_en" = Some t /\
        st !! py "summary_en" = Some s /\
        st !! py "body_en" = Some b /\
        translate_calls tr'
        = translate_calls tr ++ three_translations t s b ti si bi /\
        st !! py "title_id" = Some (PyStr ti) /\
        st !! py "seo_id" = Some (PyStr ti) /\
        st !! py "summary_id" = Some (PyStr si) /\
        st !! py "body_id" = Some (PyStr bi)) /\
  (forall i tr,
      (length (translate_calls (run (generate_article (generator c) i) w tr).1)
       <= length (translate_calls tr) + 3)%nat).
Proof.
  split; [|split].
  - intros st tr tr' upd E.
    apply translator_inv in E
      as (t & s & b & ti & si & bi & Ht & Hs & Hb & -> & ->).
    exists t, s, b, ti, si, bi.
    rewrite translate_calls_app. cbn.
    repeat match goal with |- _ /\ _ => split end; try done; lookup_state.
  - intros i tr tr' st E.
    apply completed_run in E
      as (t & s & b & ti & si & bi & g & -> & Htr & _).
    exists t, s, b, ti, si, bi.
    repeat match goal with |- _ /\ _ => split end; try done; lookup_state.
  - intros i tr. apply generate_article_calls.
Qed.

(** C8. Running the compiled five-node workflow is the same as running
    the five stage functions one after the other, in the order
    [title_generator], [summary_generator], [body_generator],
    [translator], [tags_generator], each one's returned fields merged
    into the running state before the next: in every world and from every
    trace the two leave the same trace and the same outcome. *)
Theorem C8_graph_run_is_sequential
  (c : ChatOllama) (i : pyval) (w : services) (tr : trace) :
  run (generate_article (generator c) i) w tr
  = run (sequential_pipeline py_str parse_json c i) w tr.
Proof. apply generate_article_sequential. Qed.

(** C9. The empty string fails validation with status 400 and the
    message "Input must be a string", raised by the test for a false
    value; a whitespace-only string fails with status 400 and the
    message "Input cannot be empty or just whitespace"; the two messages
    differ; and the handler answers with these same exceptions. *)
Theorem C9_validation_messages (w : services) :
  validate_string (PyStr [])
  = Raise (HTTPException 400 (py "Input must be a string")) /\
  truthy (PyStr []) = false /\
  run (handler (PyStr [])) w []
  = ([request_received],
     inl (HTTPException 400 (py "Input must be a string"))) /\
  (forall s, s <> [] -> strip s = [] ->
     validate_string (PyStr s)
     = Raise (HTTPException 400
                (py "Input cannot be empty or just whitespace")) /\
     run (handler (PyStr s)) w []
     = ([request_received],
        inl (HTTPException 400
               (py "Input cannot be empty or just whitespace")))) /\
  py "Input must be a string"
  <> py "Input cannot be empty or just whitespace".
Proof.
  split; [reflexivity|]. split; [reflexivity|]. split; [reflexivity|].
  split; [|py_ne].
  intros s Hne Hs. pose proof (validate_string_blank s Hne Hs) as Hv.
  split; [done|]. by apply run_classify_texts_invalid.
Qed.

(** C10. Whenever the chat model's answer in the tags stage parses to a
    dictionary with the key [tags], [tags_generator] returns the value
    under that key as it is, whatever kind of value it is; and the step
    of the executor that runs the stage ends the run with this very value
    in the [tags] field of the state. *)
Theorem C10_tags_returned_unchanged
  (c : ChatOllama) (st : gmap pystr pyval) (w : services) (tr : trace)
  (ti si : pyval) (raw : pystr) (d : gmap pystr pyval) (v : pyval) :
  st !! py "title_id" = Some ti ->
  st !! py "summary_id" = Some si ->
  (forall prompt,
      llm_answer w (tr ++ [EvPrint (py "Receiving title & summary......");
                           EvPrint (py "Generating tags......")]) c prompt
      = inr raw) ->
  parse_json raw = Some (PyDict d) ->
  d !! py "tags" = Some v ->
  (run (tags_generator py_str parse_json c st) w tr).2
  = inr {[ py "tags" := v ]} /\
  (run (superstep (workflow (generator c)) [py "tags_generator"] st) w tr).2
  = inr ([], <[ py "tags" := v ]> st).
Proof.
  intros Hti Hsi Hllm Hparse Hv.
  assert (exists tr', run (tags_generator py_str parse_json c st) w tr
                      = (tr', inr {[ py "tags" := v ]})) as [tr' E].
  { unfold tags_generator, invoke_chain, tags_prompt.
    cbn [template format_pieces]. unfold dict_getitem, getitem.
    apply dict_subscript_inr in Hti, Hsi, Hv.
    assert (dict_subscript (<[py "title_id":=ti]> {[py "summary_id" := si]})
              "title_id" = inr ti) as Hti'
      by (apply dict_subscript_inr; lookup_state).
    assert (dict_subscript (<[py "title_id":=ti]> {[py "summary_id" := si]})
              "summary_id" = inr si) as Hsi'
      by (apply dict_subscript_inr; lookup_state).
    cbn [bind print]. rewrite Hti. cbn [bind answer]. rewrite Hsi.
    cbn [bind answer]. rewrite Hti'. cbn [bind answer]. rewrite Hsi'.
    cbn [bind answer print run]. cbv zeta.
    rewrite <- app_assoc. cbn [app]. rewrite Hllm.
    cbn [bind answer run]. rewrite Hparse.
    cbn [bind answer run subscript]. rewrite Hv.
    cbn [bind answer run]. by eexists. }
  split; [by rewrite E|].
  rewrite (run_superstep_single _ _ _ _ _ _ (node_tags _ _ c)), E.
  rewrite workflow_schema, next_tags, restrict_singleton by in_schema.
  by rewrite <- insert_union_singleton_l.
Qed.

End Claims.

(** * The claims on sample inputs *)

Lemma sample_instruction_valid :
  sample_instruction <> [] /\ strip sample_instruction <> [].
Proof. split; intros H; vm_compute in H; discriminate H. Defined.

Lemma sample_run_completes : sample_run = (sample_run.1, inr sample_final).
Proof. vm_compute. reflexivity. Defined.

Lemma sample_config_step n :
  tasks (sample_config n) <> [] ->
  run (superstep (workflow sample_generator) (tasks (sample_config n))
         (state (sample_config n))) sample_world (log (sample_config n))
  = (log (sample_config (S n)),
     inr (tasks (sample_config (S n)), state (sample_config (S n)))) ->
  step sample_world (workflow sample_generator)
    (sample_config n) (sample_config (S n)).
Proof. intros H1 H2. split; assumption. Defined.

Lemma sample_steps_1_4 :
  rtc (step sample_world (workflow sample_generator))
    (sample_config 1) (sample_config 4).
Proof.
  eapply rtc_l; [|eapply rtc_l; [|eapply rtc_l; [|apply rtc_refl]]];
    (apply sample_config_step;
     [intros H; vm_compute in H; discriminate H|vm_compute; reflexivity]).
Defined.

Lemma sample_reachable_1 :
  reachable sample_world sample_app
    {[ py "instruction" := PyStr sample_instruction ]} [request_received]
    (sample_config 1).
Proof.
  unfold reachable. eapply rtc_l; [|apply rtc_refl].
  apply (sample_config_step 0);
    [intros H; vm_compute in H; discriminate H|vm_compute; reflexivity].
Defined.

Lemma sample_reachable_4 :
  reachable sample_world sample_app
    {[ py "instruction" := PyStr sample_instruction ]} [request_received]
    (sample_config 4).
Proof.
  unfold reachable. etrans; [apply sample_reachable_1|].
  apply sample_steps_1_4.
Defined.

Lemma C1_witness :
  match sample_run with
  | (tr, inr st) =>
      run (classify_texts sample_str sample_parse (PyStr sample_instruction))
          sample_world [] = (tr, inr st) /\
      (forall k, List.In k GraphState -> is_Some (st !! py k)) /\
      st !! py "instruction" = Some (PyStr sample_instruction) /\
      length (llm_calls tr) = 4%nat /\
      length (translate_calls tr) = 3%nat
  | (tr, inl e) =>
      run (classify_texts sample_str sample_parse (PyStr sample_instruction))
          sample_world []
      = (tr ++ [generation_failed e], inl internal_server_error)
  end.
Proof.
  apply (C1_valid_instruction_runs_pipeline_once sample_str sample_parse
           sample_instruction sample_world);
    apply sample_instruction_valid.
Defined.

Lemma C2_witness :
  exists detail,
    validate_string (PyStr (py "   ")) = Raise (HTTPException 400 detail) /\
    run (classify_texts sample_str sample_parse (PyStr (py "   ")))
        sample_world []
    = ([request_received], inl (HTTPException 400 detail)) /\
    external_calls
      (run (classify_texts sample_str sample_parse (PyStr (py "   ")))
           sample_world []).1 = [] /\
    HTTPException 400 detail <> internal_server_error.
Proof.
  apply (C2_invalid_input_fails_validation sample_str sample_parse
           (PyStr (py "   ")) sample_world).
  right. left. exists (py "   "). split; vm_compute; reflexivity.
Defined.

Lemma C3_witness :
  run (classify_texts sample_str sample_parse (PyStr sample_instruction))
      babbling_world []
  = ((run (generate_article sample_generator (PyStr sample_instruction))
          babbling_world [request_received]).1
     ++ [generation_failed
           (OutputParserException (py "Sure! Here is your title"))],
     inl (HTTPException 500 (py "Internal server error"))) /\
  (length (llm_calls
             (run (generate_article sample_generator
                     (PyStr sample_instruction))
                  babbling_world [request_received]).1) <= 4)%nat /\
  (length (translate_calls
             (run (generate_article sample_generator
                     (PyStr sample_instruction))
                  babbling_world [request_received]).1) <= 3)%nat.
Proof.
  apply (C3_pipeline_failure_is_internal_error sample_str sample_parse
           sample_instruction babbling_world);
    [apply sample_instruction_valid..|vm_compute; reflexivity].
Defined.

Lemma C4_witness :
  (exists t, sample_final !! py "title_en" = Some t /\
             sample_final !! py "seo_en" = Some t) /\
  (exists ti, sample_final !! py "title_id" = Some ti /\
              sample_final !! py "seo_id" = Some ti).
Proof.
  apply (C4_seo_equals_title sample_str sample_parse llm
           (PyStr sample_instruction) sample_world [request_received]
           sample_run.1 sample_final).
  apply sample_run_completes.
Defined.

Lemma C5_witness :
  (py "summary_generator" ∈ tasks (sample_config 4) ->
   is_Some (state (sample_config 4) !! py "title_en")) /\
  (py "body_generator" ∈ tasks (sample_config 4) ->
   is_Some (state (sample_config 4) !! py "title_en") /\
   is_Some (state (sample_config 4) !! py "summary_en")) /\
  (py "translator" ∈ tasks (sample_config 4) ->
   is_Some (state (sample_config 4) !! py "body_en")) /\
  (py "tags_generator" ∈ tasks (sample_config 4) ->
   is_Some (state (sample_config 4) !! py "title_id") /\
   is_Some (state (sample_config 4) !! py "summary_id")).
Proof.
  apply (C5_stage_ordering sample_str sample_parse llm sample_app
           (PyStr sample_instruction) sample_world [request_received]
           (sample_config 4));
    [vm_compute; reflexivity|apply sample_reachable_4].
Defined.

Lemma C6_witness :
  (forall k v, state (sample_config 1) !! k = Some v ->
               state (sample_config 4) !! k = Some v) /\
  state (sample_config 1) !! py "instruction"
  = Some (PyStr sample_instruction) /\
  state (sample_config 4) !! py "instruction"
  = Some (PyStr sample_instruction).
Proof.
  apply (C6_state_only_grows sample_str sample_parse llm sample_app
           (PyStr sample_instruction) sample_world [request_received]
           (sample_config 1) (sample_config 4));
    [vm_compute; reflexivity|apply sample_reachable_1|apply sample_steps_1_4].
Defined.

Lemma C7_witness :
  exists t s b ti si bi,
    sample_final !! py "title_en" = Some t /\
    sample_final !! py "summary_en" = Some s /\
    sample_final !! py "body_en" = Some b /\
    translate_calls sample_run.1
    = translate_calls [request_received]
      ++ three_translations t s b ti si bi /\
    sample_final !! py "title_id" = Some (PyStr ti) /\
    sample_final !! py "seo_id" = Some (PyStr ti) /\
    sample_final !! py "summary_id" = Some (PyStr si) /\
    sample_final !! py "body_id" = Some (PyStr bi).
Proof.
  apply (proj1 (proj2 (C7_three_translation_calls sample_str sample_parse
                         llm sample_world))
           (PyStr sample_instruction) [request_received]
           sample_run.1 sample_final).
  apply sample_run_completes.
Defined.

(** The claim C7 as it is written speaks of every run of the pipeline.
    With a translation service that is down, the run of the sample
    instruction reaches the translation stage, which makes one
    translation call, the title's, and stops there: not three. *)
Lemma C7_counterexample :
  In (EvPrint (py "Translating title & SEO to Indonesian......"))
     (run (generate_article sample_generator (PyStr sample_instruction))
          offline_world [request_received]).1 /\
  translate_calls
    (run (generate_article sample_generator (PyStr sample_instruction))
         offline_world [request_received]).1
  = [EvTranslate (py "en") (py "id") (PyStr (py "Urban Gardening"))
       (inl (ServiceError (py "RequestError") (py "connection refused")))] /\
  length (translate_calls
            (run (generate_article sample_generator
                    (PyStr sample_instruction))
                 offline_world [request_received]).1) <> 3%nat.
Proof.
  vm_compute. split; [|split].
  - repeat first [left; reflexivity | right].
  - reflexivity.
  - discriminate.
Qed.

Lemma C9_witness :
  validate_string (PyStr (py "   "))
  = Raise (HTTPException 400
             (py "Input cannot be empty or just whitespace")) /\
  run (classify_texts sample_str sample_parse (PyStr (py "   ")))
      sample_world []
  = ([request_received],
     inl (HTTPException 400
            (py "Input cannot be empty or just whitespace"))).
Proof.
  apply (proj1 (proj2 (proj2 (proj2
           (C9_validation_messages sample_str sample_parse sample_world))))
           (py "   "));
    [intros H; vm_compute in H; discriminate H|vm_compute; reflexivity].
Defined.

Lemma C10_witness :
  (run (tags_generator sample_str sample_parse llm translated_state)
       tags_world []).2
  = inr {[ py "tags" := PyStr (py "kebun") ]} /\
  (run (superstep (workflow sample_generator) [py "tags_generator"]
          translated_state) tags_world []).2
  = inr ([], <[ py "tags" := PyStr (py "kebun") ]> translated_state).
Proof.
  apply (C10_tags_returned_unchanged sample_str sample_parse llm
           translated_state tags_world []
           (PyStr (py "Berkebun di Kota")) (PyStr (py "Tanaman di kota."))
           (py "tags=kebun") {[ py "tags" := PyStr (py "kebun") ]}
           (PyStr (py "kebun")));
    first [ vm_compute; reflexivity | intros prompt; reflexivity ].
Defined.

(** ** The three kinds of failure, on the sample instruction *)

(** A chat model answer that is not JSON: the parser's exception is
    logged, the caller gets the internal error. *)
Example malformed_json_is_internal_error :
  let r := run (classify_texts sample_str sample_parse
                  (PyStr sample_instruction)) babbling_world [] in
  r.2 = inl internal_server_error /\
  last r.1
  = Some (generation_failed
            (OutputParserException (py "Sure! Here is your title"))) /\
  length (llm_calls r.1) = 1%nat /\ translate_calls r.1 = [].
Proof. vm_compute. repeat split; reflexivity. Qed.

(** JSON without the expected key: the [KeyError] is logged, the caller
    gets the internal error. *)
Example missing_key_is_internal_error :
  let r := run (classify_texts sample_str sample_parse
                  (PyStr sample_instruction)) off_key_world [] in
  r.2 = inl internal_server_error /\
  last r.1 = Some (generation_failed (KeyError (py "title_en"))) /\
  length (llm_calls r.1) = 1%nat /\ translate_calls r.1 = [].
Proof. vm_compute. repeat split; reflexivity. Qed.

(** A translation service that is down: the run stops at the first
    translation call, after the three English stages, and the caller gets
    the internal error. *)
Example translation_failure_is_internal_error :
  let r := run (classify_texts sample_str sample_parse
                  (PyStr sample_instruction)) offline_world [] in
  r.2 = inl internal_server_error /\
  last r.1
  = Some (generation_failed
            (ServiceError (py "RequestError") (py "connection refused"))) /\
  length (llm_calls r.1) = 3%nat /\ length (translate_calls r.1) = 1%nat.
Proof. vm_compute. repeat split; reflexivity. Qed.

(** The sample run ends with the ten fields, the tags being whatever the
    chat model put under the key. *)
Example sample_run_record :
  dom sample_final = list_to_set (List.map py GraphState) /\
  sample_final !! py "title_en" = Some (PyStr (py "Urban Gardening")) /\
  sample_final !! py "title_id" = Some (PyStr (py "id:Urban Gardening")) /\
  sample_final !! py "tags" = Some (PyStr (py "kebun")).
Proof. vm_compute. repeat split; reflexivity. Qed.

(** * Further properties of the code *)

(** ** Whitespace *)

Lemma lstrip_nil s : lstrip s = [] <-> Forall (fun c => isspace c = true) s.
Proof.
  induction s as [|c s IH]; simpl.
  - split; [constructor|done].
  - destruct (isspace c) eqn:Hc.
    + rewrite IH. split; [by constructor|by inversion 1].
    + split; [done|]. inversion 1; congruence.
Qed.

Lemma lstrip_Forall s :
  Forall (fun c => isspace c = true) s <->
  Forall (fun c => isspace c = true) (lstrip s) .
Proof.
  induction s as [|c s IH]; simpl; [done|].
  destruct (isspace c) eqn:Hc; [|done].
  rewrite <- IH. split; [by inversion 1|by constructor].
Qed.

(** [strip] leaves nothing exactly of the strings made of whitespace. *)
Lemma strip_nil_iff s :
  strip s = [] <-> Forall (fun c => isspace c = true) s.
Proof.
  unfold strip, rstrip.
  rewrite lstrip_Forall.
  split.
  - intros H. apply (f_equal (@rev N)) in H. rewrite rev_involutive in H.
    simpl in H. apply lstrip_nil in H.
    apply Forall_rev in H. by rewrite rev_involutive in H.
  - intros H. apply Forall_rev, lstrip_nil in H. by rewrite H.
Qed.

Lemma strip_ne_iff s :
  strip s <> [] <-> exists c, c ∈ s /\ isspace c = false.
Proof.
  rewrite strip_nil_iff, <- Exists_Forall_neg, Exists_exists.
  - split; intros (c & Hc & H); exists c; split; try done.
    + by destruct (isspace c).
    + congruence.
  - intros c. destruct (isspace c); [by left|by right].
Qed.

(** ** Validation, case by case *)

Lemma validate_string_cases v :
  (exists s, v = PyStr s /\ strip s <> [] /\ validate_string v = Ret tt) \/
  ((truthy v = false \/ isinstance_str v = false) /\
   validate_string v
   = Raise (HTTPException 400 (py "Input must be a string"))) \/
  (exists s, v = PyStr s /\ s <> [] /\ strip s = [] /\
   validate_string v
   = Raise (HTTPException 400
              (py "Input cannot be empty or just whitespace"))).
Proof.
  destruct (isinstance_str v) eqn:Hstr.
  - destruct v as [| | | |s| |]; try discriminate Hstr.
    destruct s as [|c s].
    + right; left. split; [by left|reflexivity].
    + destruct (decide (strip (c :: s) = [])) as [Hs|Hs].
      * right; right. exists (c :: s).
        repeat split; [done..|by apply validate_string_blank].
      * left. exists (c :: s).
        repeat split; [done|by apply validate_string_ok].
  - right; left. split; [by right|by apply validate_string_not_str].
Qed.

(** X1. [validate_string] returns exactly on the strings that hold at
    least one code point that is not whitespace. *)
Theorem X1_validate_string_accepts (v : pyval) :
  validate_string v = Ret tt <->
  exists s, v = PyStr s /\ exists c, c ∈ s /\ isspace c = false.
Proof.
  split.
  - intros Hv.
    destruct (validate_string_cases v)
      as [(s & -> & Hs & _)|[[_ H]|(s & _ & _ & _ & H)]];
      [|congruence..].
    exists s. split; [done|]. by apply strip_ne_iff.
  - intros (s & -> & Hc). by apply validate_string_ok, strip_ne_iff.
Qed.

(** X2. Every rejection of [validate_string] is an [HTTPException] with
    status 400.  Its message is "Input must be a string" exactly for the
    values that are false in a condition (among them the empty string,
    [None], zero and the empty list) and for the values that are not
    strings; it is "Input cannot be empty or just whitespace" exactly for
    the non-empty strings made of whitespace alone. *)
Theorem X2_validate_string_rejections (v : pyval) :
  (validate_string v
   = Raise (HTTPException 400 (py "Input must be a string")) <->
   truthy v = false \/ isinstance_str v = false) /\
  (validate_string v
   = Raise (HTTPException 400
              (py "Input cannot be empty or just whitespace")) <->
   exists s, v = PyStr s /\ s <> [] /\
             Forall (fun c => isspace c = true) s) /\
  (forall e, validate_string v = Raise e ->
     e = HTTPException 400 (py "Input must be a string") \/
     e = HTTPException 400 (py "Input cannot be empty or just whitespace")).
Proof.
  assert (HTTPException 400 (py "Input must be a string")
          <> HTTPException 400
               (py "Input cannot be empty or just whitespace")) as Hne
    by (intros [= H]; revert H; py_ne).
  destruct (validate_string_cases v)
    as [(s & -> & Hs & Hv)|[[Hf Hv]|(s & -> & Hs1 & Hs2 & Hv)]];
    rewrite Hv; (split; [|split]).
  - split; [done|]. intros [H|H]; [|done]. exfalso.
    apply Hs. destruct s; [done|discriminate H].
  - split; [done|]. intros (s' & [= <-] & _ & H).
    by apply strip_nil_iff in H.
  - done.
  - done.
  - split; [intros [= H]; by destruct Hne|].
    intros (s & -> & Hs & H). exfalso. apply strip_nil_iff in H.
    rewrite (validate_string_blank s Hs H) in Hv. by destruct Hne.
  - intros e [= <-]. by left.
  - split; [intros [= H]; by destruct Hne|].
    intros [H|H]; [|done]. exfalso.
    apply truthy_str in Hs1. by rewrite Hs1 in H.
  - split; [|done]. intros _. exists s. by rewrite <- strip_nil_iff.
  - intros e [= <-]. by right.
Qed.

(** ** The stages, for every answer *)

Section StageOutcomes.

Variable py_str : pyval -> pystr.
Variable parse_json : pystr -> option pyval.

Lemma run_format_pieces t kwargs w tr :
  run (format_pieces py_str t kwargs) w tr = (tr, render py_str t kwargs).
Proof.
  induction t as [|[text|name] t IH]; cbn [format_pieces render].
  - done.
  - rewrite run_bind, IH. by destruct (render py_str t kwargs).
  - unfold dict_getitem. rewrite run_bind, run_answer.
    destruct (dict_subscript kwargs name) as [e|v]; [done|].
    rewrite run_bind, IH. by destruct (render py_str t kwargs).
Qed.

(** A chain whose prompt formats to [text] makes one call with it. *)
Lemma run_chain prompt c kwargs w tr text :
  render py_str (template prompt) kwargs = inr text ->
  run (invoke_chain py_str parse_json prompt c kwargs) w tr
  = (tr ++ [EvLLM c text (llm_answer w tr c text)],
     match llm_answer w tr c text with
     | inl e => inl e
     | inr raw => match parse_json raw with
                  | Some v => inr v
                  | None => inl (OutputParserException raw)
                  end
     end).
Proof.
  intros Ht. unfold invoke_chain.
  rewrite run_bind, run_format_pieces, Ht. cbn [run bind]. cbv zeta.
  destruct (llm_answer w tr c text) as [e|raw]; cbn; [done|].
  by destruct (parse_json raw).
Qed.

Lemma render_prompt_text prompt kwargs text :
  render py_str (template prompt) kwargs = inr text ->
  prompt_text py_str prompt kwargs = text.
Proof. unfold prompt_text. by intros ->. Qed.

Ltac render_ok :=
  unfold prompt_text;
  cbn [template title_prompt summary_prompt body_prompt tags_prompt render];
  unfold dict_subscript;
  repeat first
    [ rewrite lookup_insert_eq
    | rewrite lookup_insert_ne by py_ne
    | rewrite lookup_singleton_eq ];
  reflexivity.

Lemma render_title i :
  render py_str (template title_prompt) {[ py "instruction" := i ]}
  = inr (prompt_text py_str title_prompt {[ py "instruction" := i ]}).
Proof. render_ok. Qed.

Lemma render_summary t :
  render py_str (template summary_prompt) {[ py "title_en" := t ]}
  = inr (prompt_text py_str summary_prompt {[ py "title_en" := t ]}).
Proof. render_ok. Qed.

Lemma render_body t s :
  render py_str (template body_prompt)
    (<[ py "title_en" := t ]> {[ py "summary_en" := s ]})
  = inr (prompt_text py_str body_prompt
           (<[ py "title_en" := t ]> {[ py "summary_en" := s ]})).
Proof. render_ok. Qed.

Lemma render_tags ti si :
  render py_str (template tags_prompt)
    (<[ py "title_id" := ti ]> {[ py "summary_id" := si ]})
  = inr (prompt_text py_str tags_prompt
           (<[ py "title_id" := ti ]> {[ py "summary_id" := si ]})).
Proof. render_ok. Qed.

(** Run a stage up to its call and split on what comes back. *)
Ltac stage_outcome Hrender :=
  unfold dict_getitem, getitem, answer_field;
  cbn [bind print];
  repeat match goal with
         | H : _ !! _ = Some _ |- _ =>
             apply dict_subscript_inr in H; rewrite H; clear H;
             cbn [bind answer]
         end;
  cbn [run]; rewrite run_bind, (run_chain _ _ _ _ _ _ Hrender);
  rewrite <- ?app_assoc; cbn [app];
  match goal with
  | |- context [llm_answer ?w ?tr ?c ?p] =>
      destruct (llm_answer w tr c p) as [?|raw]; cbn [fst snd];
      [|destruct (parse_json raw) as [v|]; cbn [fst snd run bind];
        [rewrite ?run_bind, ?run_answer;
         destruct (subscript v _) as [?|?]; cbn [fst snd run bind];
         rewrite ?run_bind, ?run_answer; cbn [fst snd run bind]|]]
  end;
  (split; [reflexivity|]);
  rewrite <- ?app_assoc; cbn [app];
  rewrite external_calls_app; reflexivity.

Lemma title_generator_outcome
  (c : ChatOllama) (st : gmap pystr pyval) (w : services) (tr : trace)
  (i : pyval) :
  st !! py "instruction" = Some i ->
  let prompt := prompt_text py_str title_prompt {[ py "instruction" := i ]} in
  let a := llm_answer w
             (tr ++ [EvPrint (py "Receiving instruction......");
                     EvPrint (py "Generating title......")]) c prompt in
  (run (title_generator py_str parse_json c st) w tr).2
  = match answer_field parse_json "title_en" a with
    | inl e => inl e
    | inr t => inr (<[ py "title_en" := t ]> {[ py "seo_en" := t ]})
    end /\
  external_calls (run (title_generator py_str parse_json c st) w tr).1
  = external_calls tr ++ [EvLLM c prompt a].
Proof.
  intros Hi. cbv zeta. unfold title_generator.
  stage_outcome (render_title i).
Qed.

Lemma summary_generator_outcome
  (c : ChatOllama) (st : gmap pystr pyval) (w : services) (tr : trace)
  (t : pyval) :
  st !! py "title_en" = Some t ->
  let prompt := prompt_text py_str summary_prompt {[ py "title_en" := t ]} in
  let a := llm_answer w
             (tr ++ [EvPrint (py "Receiving title......");
                     EvPrint (py "Generating summary......")]) c prompt in
  (run (summary_generator py_str parse_json c st) w tr).2
  = match answer_field parse_json "summary_en" a with
    | inl e => inl e
    | inr s => inr {[ py "summary_en" := s ]}
    end /\
  external_calls (run (summary_generator py_str parse_json c st) w tr).1
  = external_calls tr ++ [EvLLM c prompt a].
Proof.
  intros Ht. cbv zeta. unfold summary_generator.
  stage_outcome (render_summary t).
Qed.

Lemma body_generator_outcome
  (c : ChatOllama) (st : gmap pystr pyval) (w : services) (tr : trace)
  (t s : pyval) :
  st !! py "title_en" = Some t ->
  st !! py "summary_en" = Some s ->
  let prompt := prompt_text py_str body_prompt
                  (<[ py "title_en" := t ]> {[ py "summary_en" := s ]}) in
  let a := llm_answer w
             (tr ++ [EvPrint (py "Receiving title & summary......");
                     EvPrint (py "Generating article body......")])
             c prompt in
  (run (body_generator py_str parse_json c st) w tr).2
  = match answer_field parse_json "body_en" a with
    | inl e => inl e
    | inr b => inr {[ py "body_en" := b ]}
    end /\
  external_calls (run (body_generator py_str parse_json c st) w tr).1
  = external_calls tr ++ [EvLLM c prompt a].
Proof.
  intros Ht Hs. cbv zeta. unfold body_generator.
  stage_outcome (render_body t s).
Qed.

Lemma tags_generator_outcome
  (c : ChatOllama) (st : gmap pystr pyval) (w : services) (tr : trace)
  (ti si : pyval) :
  st !! py "title_id" = Some ti ->
  st !! py "summary_id" = Some si ->
  let prompt := prompt_text py_str tags_prompt
                  (<[ py "title_id" := ti ]> {[ py "summary_id" := si ]}) in
  let a := llm_answer w
             (tr ++ [EvPrint (py "Receiving title & summary......");
                     EvPrint (py "Generating tags......")]) c prompt in
  (run (tags_generator py_str parse_json c st) w tr).2
  = match answer_field parse_json "tags" a with
    | inl e => inl e
    | inr g => inr {[ py "tags" := g ]}
    end /\
  external_calls (run (tags_generator py_str parse_json c st) w tr).1
  = external_calls tr ++ [EvLLM c prompt a].
Proof.
  intros Hti Hsi. cbv zeta. unfold tags_generator.
  stage_outcome (render_tags ti si).
Qed.

(** X3. Given an instruction, [title_generator] makes exactly one
    external call, to the chat model, with the title prompt formatted on
    the instruction.  Its outcome is decided by the answer: the
    service's own exception, the parser's exception for a text that is
    not JSON, the [TypeError] or [KeyError] of subscripting the parsed
    value with [title_en], or else the value found there returned as both
    [title_en] and [seo_en]. *)
Theorem X3_title_generator_outcome
  (c : ChatOllama) (st : gmap pystr pyval) (w : services) (tr : trace)
  (i : pyval) :
  st !! py "instruction" = Some i ->
  let prompt := prompt_text py_str title_prompt {[ py "instruction" := i ]} in
  let a := llm_answer w
             (tr ++ [EvPrint (py "Receiving instruction......");
                     EvPrint (py "Generating title......")]) c prompt in
  (run (title_generator py_str parse_json c st) w tr).2
  = match answer_field parse_json "title_en" a with
    | inl e => inl e
    | inr t => inr (<[ py "title_en" := t ]> {[ py "seo_en" := t ]})
    end /\
  external_calls (run (title_generator py_str parse_json c st) w tr).1
  = external_calls tr ++ [EvLLM c prompt a].
Proof. apply title_generator_outcome. Qed.

(** X4. Given a title, [summary_generator] makes exactly one external
    call, to the chat model, with the summary prompt formatted on
    [title_en] alone, and its outcome is decided by the answer in the
    same way, the field asked for being [summary_en]. *)
Theorem X4_summary_generator_outcome
  (c : ChatOllama) (st : gmap pystr pyval) (w : services) (tr : trace)
  (t : pyval) :
  st !! py "title_en" = Some t ->
  let prompt := prompt_text py_str summary_prompt {[ py "title_en" := t ]} in
  let a := llm_answer w
             (tr ++ [EvPrint (py "Receiving title......");
                     EvPrint (py "Generating summary......")]) c prompt in
  (run (summary_generator py_str parse_json c st) w tr).2
  = match answer_field parse_json "summary_en" a with
    | inl e => inl e
    | inr s => inr {[ py "summary_en" := s ]}
    end /\
  external_calls (run (summary_generator py_str parse_json c st) w tr).1
  = external_calls tr ++ [EvLLM c prompt a].
Proof. apply summary_generator_outcome. Qed.

(** X5. Given a title and a summary, [body_generator] makes exactly one
    external call, to the chat model, with the body prompt formatted on
    [title_en] and [summary_en], and its outcome is decided by the answer
    in the same way, the field asked for being [body_en]. *)
Theorem X5_body_generator_outcome
  (c : ChatOllama) (st : gmap pystr pyval) (w : services) (tr : trace)
  (t s : pyval) :
  st !! py "title_en" = Some t ->
  st !! py "summary_en" = Some s ->
  let prompt := prompt_text py_str body_prompt
                  (<[ py "title_en" := t ]> {[ py "summary_en" := s ]}) in
  let a := llm_answer w
             (tr ++ [EvPrint (py "Receiving title & summary......");
                     EvPrint (py "Generating article body......")])
             c prompt in
  (run (body_generator py_str parse_json c st) w tr).2
  = match answer_field parse_json "body_en" a with
    | inl e => inl e
    | inr b => inr {[ py "body_en" := b ]}
    end /\
  external_calls (run (body_generator py_str parse_json c st) w tr).1
  = external_calls tr ++ [EvLLM c prompt a].
Proof. apply body_generator_outcome. Qed.

(** X6. Given a translated title and summary, [tags_generator] makes
    exactly one external call, to the chat model, with the tags prompt
    formatted on [title_id] and [summary_id], and its outcome is decided
    by the answer in the same way, the field asked for being [tags]. *)
Theorem X6_tags_generator_outcome
  (c : ChatOllama) (st : gmap pystr pyval) (w : services) (tr : trace)
  (ti si : pyval) :
  st !! py "title_id" = Some ti ->
  st !! py "summary_id" = Some si ->
  let prompt := prompt_text py_str tags_prompt
                  (<[ py "title_id" := ti ]> {[ py "summary_id" := si ]}) in
  let a := llm_answer w
             (tr ++ [EvPrint (py "Receiving title & summary......");
                     EvPrint (py "Generating tags......")]) c prompt in
  (run (tags_generator py_str parse_json c st) w tr).2
  = match answer_field parse_json "tags" a with
    | inl e => inl e
    | inr g => inr {[ py "tags" := g ]}
    end /\
  external_calls (run (tags_generator py_str parse_json c st) w tr).1
  = external_calls tr ++ [EvLLM c prompt a].
Proof. apply tags_generator_outcome. Qed.

(** X7. [translator] stops at the first translation that fails: it
    raises the exception of that call and makes no further call.  So a
    failure of the title's translation leaves one call in the trace, a
    failure of the summary's two, and a failure of the body's three. *)
Theorem X7_translator_stops_at_first_failure
  (st : gmap pystr pyval) (w : services) (tr : trace) (t s b : pyval) :
  st !! py "title_en" = Some t ->
  st !! py "summary_en" = Some s ->
  st !! py "body_en" = Some b ->
  let tr1 := tr ++ [EvPrint (py "Translating title & SEO to Indonesian......")]
  in
  let a1 := translate_answer w tr1 (py "en") (py "id") t in
  let tr2 := tr1 ++ [EvTranslate (py "en") (py "id") t a1;
                     EvPrint (py "Translating summary to Indonesian......")]
  in
  let a2 := translate_answer w tr2 (py "en") (py "id") s in
  let tr3 := tr2 ++ [EvTranslate (py "en") (py "id") s a2;
                     EvPrint
                       (py "Translating article body to Indonesian......")]
  in
  let a3 := translate_answer w tr3 (py "en") (py "id") b in
  (forall e, a1 = inl e ->
     run (translator st) w tr
     = (tr1 ++ [EvTranslate (py "en") (py "id") t a1], inl e)) /\
  (forall ti e, a1 = inr ti -> a2 = inl e ->
     run (translator st) w tr
     = (tr2 ++ [EvTranslate (py "en") (py "id") s a2], inl e)) /\
  (forall ti si e, a1 = inr ti -> a2 = inr si -> a3 = inl e ->
     run (translator st) w tr
     = (tr3 ++ [EvTranslate (py "en") (py "id") b a3], inl e)).
Proof.
  intros Ht Hs Hb. cbv zeta.
  apply dict_subscript_inr in Ht, Hs, Hb.
  unfold translator, dict_getitem.
  rewrite Ht. cbn [bind answer]. rewrite Hs. cbn [bind answer].
  rewrite Hb. cbn [bind answer print translate run]. cbv zeta.
  split; [|split].
  - intros e ->. reflexivity.
  - intros ti e -> . cbn [bind answer run]. cbv zeta.
    rewrite <- !app_assoc. cbn [app].
    intros ->. reflexivity.
  - intros ti si e ->. cbn [bind answer run]. cbv zeta.
    rewrite <- !app_assoc. cbn [app].
    intros ->. cbn [bind answer run]. cbv zeta.
    rewrite <- !app_assoc. cbn [app].
    intros ->. reflexivity.
Qed.

(** X8. A stage whose state lacks one of its inputs raises the
    [KeyError] of the first input that is missing, without having called
    the chat model or the translation service. *)
Theorem X8_missing_input_raises_key_error
  (c : ChatOllama) (st : gmap pystr pyval) :
  (st !! py "instruction" = None ->
   fails_before_calls (title_generator py_str parse_json c st)
     (KeyError (py "instruction"))) /\
  (st !! py "title_en" = None ->
   fails_before_calls (summary_generator py_str parse_json c st)
     (KeyError (py "title_en")) /\
   fails_before_calls (body_generator py_str parse_json c st)
     (KeyError (py "title_en")) /\
   fails_before_calls (translator st) (KeyError (py "title_en"))) /\
  (is_Some (st !! py "title_en") -> st !! py "summary_en" = None ->
   fails_before_calls (body_generator py_str parse_json c st)
     (KeyError (py "summary_en")) /\
   fails_before_calls (translator st) (KeyError (py "summary_en"))) /\
  (is_Some (st !! py "title_en") -> is_Some (st !! py "summary_en") ->
   st !! py "body_en" = None ->
   fails_before_calls (translator st) (KeyError (py "body_en"))) /\
  (st !! py "title_id" = None ->
   fails_before_calls (tags_generator py_str parse_json c st)
     (KeyError (py "title_id"))) /\
  (is_Some (st !! py "title_id") -> st !! py "summary_id" = None ->
   fails_before_calls (tags_generator py_str parse_json c st)
     (KeyError (py "summary_id"))).
Proof.
  assert (forall k, st !! py k = None ->
            dict_subscript st k = inl (KeyError (py k))) as Hnone
    by (intros k H; unfold dict_subscript; by rewrite H).
  assert (forall k, is_Some (st !! py k) ->
            exists v, dict_subscript st k = inr v) as Hsome
    by (intros k [v H]; exists v; by apply dict_subscript_inr).
  repeat match goal with
         | |- _ /\ _ => split
         | |- _ -> _ => intros ?
         end;
    repeat match goal with
           | H : st !! _ = None |- _ => apply Hnone in H
           | H : is_Some (st !! _) |- _ => apply Hsome in H as [? H]
           end;
    intros w tr;
    unfold title_generator, summary_generator, body_generator, translator,
      tags_generator, dict_getitem;
    cbn [bind print run];
    repeat match goal with
           | H : dict_subscript _ _ = _ |- _ =>
               rewrite H; cbn [bind answer run]; clear H
           end;
    cbn [fst snd]; (split; [reflexivity|]);
    rewrite <- ?app_assoc, ?external_calls_app; cbn;
    by rewrite ?app_nil_r.
Qed.

(** X9. A stage reads only its own inputs: two states that agree on the
    fields a stage reads give the same program, so the same calls and
    the same outcome whatever else the states hold. *)
Theorem X9_stages_read_only_their_inputs
  (c : ChatOllama) (st st' : gmap pystr pyval) :
  (st !! py "instruction" = st' !! py "instruction" ->
   title_generator py_str parse_json c st
   = title_generator py_str parse_json c st') /\
  (st !! py "title_en" = st' !! py "title_en" ->
   summary_generator py_str parse_json c st
   = summary_generator py_str parse_json c st') /\
  (st !! py "title_en" = st' !! py "title_en" ->
   st !! py "summary_en" = st' !! py "summary_en" ->
   body_generator py_str parse_json c st
   = body_generator py_str parse_json c st') /\
  (st !! py "title_en" = st' !! py "title_en" ->
   st !! py "summary_en" = st' !! py "summary_en" ->
   st !! py "body_en" = st' !! py "body_en" ->
   translator st = translator st') /\
  (st !! py "title_id" = st' !! py "title_id" ->
   st !! py "summary_id" = st' !! py "summary_id" ->
   tags_generator py_str parse_json c st
   = tags_generator py_str parse_json c st').
Proof.
  repeat match goal with |- _ /\ _ => split end; intros;
    unfold title_generator, summary_generator, body_generator, translator,
      tags_generator, dict_getitem, dict_subscript;
    repeat match goal with H : st !! _ = st' !! _ |- _ => rewrite H; clear H end;
    reflexivity.
Qed.

End StageOutcomes.

(** ** The pipeline and the handler, for every world *)

Section Serving.

Variable py_str : pyval -> pystr.
Variable parse_json : pystr -> option pyval.

Abbreviation generator := (__init__ py_str parse_json).
Abbreviation handler := (classify_texts py_str parse_json).

(** X10. Whatever the input and whatever the services do, the handler
    has one of three outcomes: it returns a record with all ten fields,
    or it raises an [HTTPException] with status 400, or it raises the one
    with status 500 and the detail "Internal server error".  No other
    exception leaves it.  Its trace starts with the log record of the
    request, and it calls the chat model at most four times and the
    translation service at most three times. *)
Theorem X10_handler_outcomes (v : pyval) (w : services) :
  ((exists st, (run (handler v) w []).2 = inr st /\
               forall k, List.In k GraphState -> is_Some (st !! py k)) \/
   (exists detail, (run (handler v) w []).2
                   = inl (HTTPException 400 detail)) \/
   (run (handler v) w []).2
   = inl (HTTPException 500 (py "Internal server error"))) /\
  (exists evs, (run (handler v) w []).1 = request_received :: evs) /\
  (length (llm_calls (run (handler v) w []).1) <= 4)%nat /\
  (length (translate_calls (run (handler v) w []).1) <= 3)%nat.
Proof.
  destruct (validate_string_cases v)
    as [(s & -> & Hs & _)|[[_ Hv]|(s & _ & _ & _ & Hv)]].
  - rewrite (run_classify_texts_valid py_str parse_json s w Hs).
    pose proof (generate_article_calls py_str parse_json llm (PyStr s) w
                  [request_received]) as [Hl Ht].
    destruct (run_extends (generate_article (generator llm) (PyStr s)) w
                [request_received]) as [evs Hevs].
    change (length (llm_calls [request_received])) with 0%nat in Hl.
    change (length (translate_calls [request_received])) with 0%nat in Ht.
    destruct (run _ w [request_received]) as [tr [e|st]] eqn:E;
      cbn [fst snd] in *.
    + split; [by right; right|]. split; [rewrite Hevs; by eexists|].
      rewrite llm_calls_app, translate_calls_app, !length_app.
      change (length (llm_calls [generation_failed e])) with 0%nat.
      change (length (translate_calls [generation_failed e])) with 0%nat.
      lia.
    + split; [|split; [rewrite Hevs; by eexists|lia]].
      left. exists st. split; [done|].
      apply completed_run in E
        as (t & sm & b & ti & si & bi & g & -> & _ & _).
      intros k Hk. unfold GraphState in Hk. cbn [List.In] in Hk.
      repeat (destruct Hk as [<-|Hk]; [lookup_state|]). done.
  - rewrite (run_classify_texts_invalid py_str parse_json v w _ Hv).
    split; [right; left; by eexists|]. split; [by exists []|].
    simpl. lia.
  - rewrite (run_classify_texts_invalid py_str parse_json v w _ Hv).
    split; [right; left; by eexists|]. split; [by exists []|].
    simpl. lia.
Qed.

(** *** Where the calls go *)

Lemma addresses_bind {A B} c (p : prog A) (f : A -> prog B) :
  addresses c p -> (forall a, addresses c (f a)) -> addresses c (bind p f).
Proof. intros H Hf. induction H; simpl; try (constructor; auto; fail); auto. Qed.

Lemma addresses_answer {A} c (r : exn + A) : addresses c (answer r).
Proof. destruct r; constructor. Qed.

Lemma addresses_format c t kwargs :
  addresses c (format_pieces py_str t kwargs).
Proof.
  induction t as [|[text|name] t IH]; simpl.
  - constructor.
  - apply addresses_bind; [done|]. intros; constructor.
  - apply addresses_bind; [apply addresses_answer|]. intros v.
    apply addresses_bind; [done|]. intros; constructor.
Qed.

Lemma addresses_chain c prompt kwargs :
  addresses c (invoke_chain py_str parse_json prompt c kwargs).
Proof.
  unfold invoke_chain. apply addresses_bind; [apply addresses_format|].
  intros text. cbn [bind]. constructor. intros r.
  apply addresses_bind; [apply addresses_answer|].
  intros raw. destruct (parse_json raw); constructor.
Qed.

Ltac addressed :=
  unfold dict_getitem, getitem;
  cbn [bind print translate];
  lazymatch goal with
  | |- addresses _ (Ret _) => constructor
  | |- addresses _ (Raise _) => constructor
  | |- addresses _ (Print _ _) => constructor; addressed
  | |- addresses _ (CallTranslate _ _ _ _) =>
      constructor; intros ?; addressed
  | |- addresses _ (bind (answer _) _) =>
      apply addresses_bind; [apply addresses_answer | intros ?; addressed]
  | |- addresses _ (bind (invoke_chain _ _ _ _ _) _) =>
      apply addresses_bind; [apply addresses_chain | intros ?; addressed]
  end.

Lemma addresses_stage c f st : f ∈ stages py_str parse_json c -> addresses c (f st).
Proof.
  unfold stages. rewrite !elem_of_cons, elem_of_nil.
  intros [->|[->|[->|[->|[->|[]]]]]];
    unfold title_generator, summary_generator, body_generator, translator,
      tags_generator; addressed.
Qed.

Lemma addresses_run_stages c fs st :
  (forall f, f ∈ fs -> forall st', addresses c (f st')) ->
  addresses c (run_stages fs st).
Proof.
  revert st. induction fs as [|f fs IH]; intros st Hfs; simpl.
  - constructor.
  - apply addresses_bind; [apply Hfs; by left|].
    intros upd. apply IH. intros g Hg. apply Hfs. by right.
Qed.

Lemma addresses_run {A} c (p : prog A) w tr :
  addresses c p -> Forall (well_addressed c) tr ->
  Forall (well_addressed c) (run p w tr).1.
Proof.
  intros H. revert tr.
  induction H as [| |msg k _ IH|msg k _ IH|msg e k _ IH
                  |prompt k _ IH|text k _ IH];
    intros tr Htr; cbn [run]; cbv zeta; [done..| | | | |];
    apply IH; apply Forall_app; (split; [done|]);
    by repeat constructor.
Qed.

(** X11. Whatever the input and whatever the services answer, every call
    to the chat model that the handler makes goes to the client
    configured in [api.py], and every translation it asks for is from
    "en" to "id". *)
Theorem X11_handler_calls_are_addressed (v : pyval) (w : services) :
  Forall (well_addressed llm) (run (handler v) w []).1.
Proof.
  assert (Forall (well_addressed llm) [request_received]) as Hrr
    by (by repeat constructor).
  destruct (validate_string_cases v)
    as [(s & -> & Hs & _)|[[_ Hv]|(s & _ & _ & _ & Hv)]];
    [|by rewrite (run_classify_texts_invalid py_str parse_json v w _ Hv)..].
  rewrite (run_classify_texts_valid py_str parse_json s w Hs).
  rewrite generate_article_sequential.
  pose proof (addresses_run llm
                (sequential_pipeline py_str parse_json llm (PyStr s)) w
                [request_received]) as H.
  destruct (run _ w [request_received]) as [tr [e|st]]; cbn [fst] in *.
  - apply Forall_app. split; [|by repeat constructor].
    apply H; [|done]. apply addresses_run_stages.
    intros f Hf st'. by apply addresses_stage.
  - apply H; [|done]. apply addresses_run_stages.
    intros f Hf st'. by apply addresses_stage.
Qed.

(** *** Failures *)

(** A node that returns takes the run one step further. *)
Lemma stage_step g name f st w tr tr1 upd :
  lookup_node (nodes g) name = Some f ->
  run (f st) w tr = (tr1, inr upd) ->
  step w g (Config [name] st tr)
    (Config (next_tasks g [name]) (restrict (schema g) upd ∪ st) tr1).
Proof.
  intros Hf E. split; [done|]. cbn [tasks state log].
  by rewrite (run_superstep_single _ _ _ _ _ _ Hf), E.
Qed.

(** X12. The pipeline fails only when a stage of this very run fails:
    there is a configuration that the run of the compiled workflow
    reaches, whose single task is one of the five stage functions, and
    that stage, run on the state and from the trace of this
    configuration, ends with the very trace and exception that the
    pipeline ends with.  So on this workflow the executor raises nothing
    of its own, neither at compilation, nor for the step limit, nor for
    conflicting writes. *)
Theorem X12_pipeline_failure_is_a_stage_failure
  (c : ChatOllama) (i : pyval) (w : services) (tr tr' : trace) (e : exn) :
  run (generate_article (generator c) i) w tr = (tr', inl e) ->
  exists app cf name f,
    compile (workflow (generator c)) = Ret app /\
    reachable w app {[ py "instruction" := i ]} tr cf /\
    tasks cf = [name] /\
    lookup_node (nodes (builder app)) name = Some f /\
    f ∈ stages py_str parse_json c /\
    run (f (state cf)) w (log cf) = (tr', inl e).
Proof.
  rewrite generate_article_sequential.
  unfold sequential_pipeline, stages. cbn [run_stages].
  intros H.
  exists {| builder := workflow (generator c);
            entry := py "title_generator" |}.
  assert (forall cf name f,
            rtc (step w (workflow (generator c)))
              (Config [py "title_generator"]
                 {[ py "instruction" := i ]} tr) cf ->
            tasks cf = [name] ->
            lookup_node (nodes (workflow (generator c))) name = Some f ->
            f ∈ stages py_str parse_json c ->
            run (f (state cf)) w (log cf) = (tr', inl e) ->
            exists cf name f,
              compile (workflow (generator c))
              = Ret {| builder := workflow (generator c);
                       entry := py "title_generator" |} /\
              reachable w {| builder := workflow (generator c);
                             entry := py "title_generator" |}
                {[ py "instruction" := i ]} tr cf /\
              tasks cf = [name] /\
              lookup_node (nodes (workflow (generator c))) name = Some f /\
              f ∈ stages py_str parse_json c /\
              run (f (state cf)) w (log cf) = (tr', inl e)) as Hfound.
  { intros cf name f Hcf Hts Hf Hin Hrun. exists cf, name, f.
    split; [apply compile_workflow|]. split; [|done].
    unfold reachable, initial. cbn [builder entry].
    rewrite workflow_schema, restrict_singleton by in_schema. exact Hcf. }
  pose proof (node_title py_str parse_json c) as N1.
  pose proof (node_summary py_str parse_json c) as N2.
  pose proof (node_body py_str parse_json c) as N3.
  pose proof (node_translator py_str parse_json c) as N4.
  pose proof (node_tags py_str parse_json c) as N5.
  assert (forall f, f ∈ stages py_str parse_json c <->
            f = title_generator py_str parse_json c \/
            f = summary_generator py_str parse_json c \/
            f = body_generator py_str parse_json c \/
            f = translator \/
            f = tags_generator py_str parse_json c) as Hst.
  { intros f. unfold stages. rewrite !elem_of_cons, elem_of_nil. tauto. }
  rewrite run_bind in H.
  destruct (run (title_generator _ _ _ _) w tr) as [tr1 [e1|u1]] eqn:E1.
  { injection H as <- <-.
    eapply (Hfound (Config _ _ _)); [apply rtc_refl|done|exact N1| |exact E1].
    apply Hst. tauto. }
  pose proof (stage_step _ _ _ _ _ _ _ _ N1 E1) as S1.
  apply title_generator_inv in E1 as (? & ? & ? & t & _ & -> & _).
  rewrite workflow_schema, next_title in S1.
  rewrite restrict_insert, restrict_singleton in S1 by in_schema.
  rewrite run_bind in H.
  destruct (run (summary_generator _ _ _ _) w tr1) as [tr2 [e2|u2]] eqn:E2.
  { injection H as <- <-.
    eapply (Hfound (Config _ _ _));
      [eapply rtc_once, S1|done|exact N2| |exact E2].
    apply Hst. tauto. }
  pose proof (stage_step _ _ _ _ _ _ _ _ N2 E2) as S2.
  apply summary_generator_inv in E2 as (? & ? & ? & s & _ & -> & _).
  rewrite workflow_schema, next_summary in S2.
  rewrite restrict_singleton in S2 by in_schema.
  rewrite run_bind in H.
  destruct (run (body_generator _ _ _ _) w tr2) as [tr3 [e3|u3]] eqn:E3.
  { injection H as <- <-.
    eapply (Hfound (Config _ _ _));
      [eapply rtc_l; [exact S1|eapply rtc_once, S2]|done|exact N3|
       |exact E3].
    apply Hst. tauto. }
  pose proof (stage_step _ _ _ _ _ _ _ _ N3 E3) as S3.
  apply body_generator_inv in E3 as (? & ? & ? & ? & b & _ & _ & -> & _).
  rewrite workflow_schema, next_body in S3.
  rewrite restrict_singleton in S3 by in_schema.
  rewrite run_bind in H.
  destruct (run (translator _) w tr3) as [tr4 [e4|u4]] eqn:E4.
  { injection H as <- <-.
    eapply (Hfound (Config _ _ _));
      [eapply rtc_l; [exact S1|eapply rtc_l; [exact S2|eapply rtc_once, S3]]
      |done|exact N4| |exact E4].
    apply Hst. tauto. }
  pose proof (stage_step _ _ _ _ _ _ _ _ N4 E4) as S4.
  apply translator_inv in E4
    as (? & ? & ? & ti & si & bi & _ & _ & _ & -> & _).
  rewrite workflow_schema, next_translator in S4.
  rewrite !restrict_insert, restrict_singleton in S4 by in_schema.
  rewrite run_bind in H.
  destruct (run (tags_generator _ _ _ _) w tr4) as [tr5 [e5|u5]] eqn:E5.
  { injection H as <- <-.
    eapply (Hfound (Config _ _ _));
      [eapply rtc_l; [exact S1|eapply rtc_l; [exact S2|
         eapply rtc_l; [exact S3|eapply rtc_once, S4]]]
      |done|exact N5| |exact E5].
    apply Hst. tauto. }
  discriminate H.
Qed.

(** *** Completed runs and cooperative services *)

Lemma answer_field_cooperative w key tr c prompt :
  cooperative parse_json w ->
  key = "title_en"%string \/ key = "summary_en"%string \/
  key = "body_en"%string \/ key = "tags"%string ->
  exists v, answer_field parse_json key (llm_answer w tr c prompt) = inr v.
Proof.
  intros [Hllm _] Hkey.
  destruct (Hllm tr c prompt) as (raw & d & -> & Hp & H1 & H2 & H3 & H4).
  unfold answer_field. rewrite Hp. cbn [subscript].
  destruct Hkey as [ -> | [ -> | [ -> | -> ] ] ];
    [destruct H1 as [v H]|destruct H2 as [v H]
     |destruct H3 as [v H]|destruct H4 as [v H]];
    exists v; by apply dict_subscript_inr.
Qed.

Ltac stage_result H E :=
  cbv zeta in H; destruct H as [H ?]; rewrite E in *; cbn [fst snd] in *.

Lemma title_success c st w tr tr' u i :
  st !! py "instruction" = Some i ->
  run (title_generator py_str parse_json c st) w tr = (tr', inr u) ->
  exists a t,
    answer_field parse_json "title_en" a = inr t /\
    u = <[ py "title_en" := t ]> {[ py "seo_en" := t ]} /\
    external_calls tr'
    = external_calls tr
      ++ [EvLLM c (prompt_text py_str title_prompt
                     {[ py "instruction" := i ]}) a].
Proof.
  intros Hi E.
  pose proof (title_generator_outcome py_str parse_json c st w tr i Hi) as H.
  stage_result H E.
  destruct (answer_field _ _ _) as [e|t] eqn:Ha; [discriminate H|].
  injection H as ->. by repeat eexists.
Qed.

Lemma summary_success c st w tr tr' u t :
  st !! py "title_en" = Some t ->
  run (summary_generator py_str parse_json c st) w tr = (tr', inr u) ->
  exists a s,
    answer_field parse_json "summary_en" a = inr s /\
    u = {[ py "summary_en" := s ]} /\
    external_calls tr'
    = external_calls tr
      ++ [EvLLM c (prompt_text py_str summary_prompt
                     {[ py "title_en" := t ]}) a].
Proof.
  intros Ht E.
  pose proof (summary_generator_outcome py_str parse_json c st w tr t Ht)
    as H.
  stage_result H E.
  destruct (answer_field _ _ _) as [e|s] eqn:Ha; [discriminate H|].
  injection H as ->. by repeat eexists.
Qed.

Lemma body_success c st w tr tr' u t s :
  st !! py "title_en" = Some t ->
  st !! py "summary_en" = Some s ->
  run (body_generator py_str parse_json c st) w tr = (tr', inr u) ->
  exists a b,
    answer_field parse_json "body_en" a = inr b /\
    u = {[ py "body_en" := b ]} /\
    external_calls tr'
    = external_calls tr
      ++ [EvLLM c (prompt_text py_str body_prompt
                     (<[ py "title_en" := t ]> {[ py "summary_en" := s ]}))
            a].
Proof.
  intros Ht Hs E.
  pose proof (body_generator_outcome py_str parse_json c st w tr t s Ht Hs)
    as H.
  stage_result H E.
  destruct (answer_field _ _ _) as [e|b] eqn:Ha; [discriminate H|].
  injection H as ->. by repeat eexists.
Qed.

Lemma tags_success c st w tr tr' u ti si :
  st !! py "title_id" = Some ti ->
  st !! py "summary_id" = Some si ->
  run (tags_generator py_str parse_json c st) w tr = (tr', inr u) ->
  exists a g,
    answer_field parse_json "tags" a = inr g /\
    u = {[ py "tags" := g ]} /\
    external_calls tr'
    = external_calls tr
      ++ [EvLLM c (prompt_text py_str tags_prompt
                     (<[ py "title_id" := ti ]> {[ py "summary_id" := si ]}))
            a].
Proof.
  intros Hti Hsi E.
  pose proof (tags_generator_outcome py_str parse_json c st w tr ti si
                Hti Hsi) as H.
  stage_result H E.
  destruct (answer_field _ _ _) as [e|g] eqn:Ha; [discriminate H|].
  injection H as ->. by repeat eexists.
Qed.

(** X13. In a completed run of the pipeline the external calls are, in
    this order: three calls to the chat model, with the title prompt on
    the instruction, the summary prompt on the title just obtained, and
    the body prompt on that title and summary; the three translations;
    and one call to the chat model with the tags prompt on the translated
    title and summary.  The fields of the final record are the values
    found in the answers to these very calls. *)
Theorem X13_completed_run_calls
  (c : ChatOllama) (i : pyval) (w : services) (tr tr' : trace)
  (st : gmap pystr pyval) :
  run (generate_article (generator c) i) w tr = (tr', inr st) ->
  exists t s b ti si bi g a1 a2 a3 a4,
    st = state6 i t s b ti si bi g /\
    answer_field parse_json "title_en" a1 = inr t /\
    answer_field parse_json "summary_en" a2 = inr s /\
    answer_field parse_json "body_en" a3 = inr b /\
    answer_field parse_json "tags" a4 = inr g /\
    external_calls tr'
    = external_calls tr
      ++ [EvLLM c (prompt_text py_str title_prompt
                     {[ py "instruction" := i ]}) a1;
          EvLLM c (prompt_text py_str summary_prompt
                     {[ py "title_en" := t ]}) a2;
          EvLLM c (prompt_text py_str body_prompt
                     (<[ py "title_en" := t ]> {[ py "summary_en" := s ]}))
            a3]
      ++ three_translations t s b ti si bi
      ++ [EvLLM c (prompt_text py_str tags_prompt
                     (<[ py "title_id" := PyStr ti ]>
                        {[ py "summary_id" := PyStr si ]})) a4].
Proof.
  rewrite generate_article_sequential.
  unfold sequential_pipeline, stages. cbn [run_stages].
  fold (state1 i). rewrite run_bind.
  destruct (run (title_generator _ _ _ _) w tr) as [tr1 [e|u1]] eqn:E1;
    [discriminate|].
  apply (title_success _ _ _ _ _ _ i) in E1
    as (a1 & t & Ha1 & -> & Htr1); [|lookup_state].
  rewrite <- insert_union_l, <- insert_union_singleton_l.
  fold (state2 i t). rewrite run_bind.
  destruct (run (summary_generator _ _ _ _) w tr1) as [tr2 [e|u2]] eqn:E2;
    [discriminate|].
  apply (summary_success _ _ _ _ _ _ t) in E2
    as (a2 & s & Ha2 & -> & Htr2); [|lookup_state].
  rewrite <- insert_union_singleton_l.
  fold (state3 i t s). rewrite run_bind.
  destruct (run (body_generator _ _ _ _) w tr2) as [tr3 [e|u3]] eqn:E3;
    [discriminate|].
  apply (body_success _ _ _ _ _ _ t s) in E3
    as (a3 & b & Ha3 & -> & Htr3); [|lookup_state..].
  rewrite <- insert_union_singleton_l.
  fold (state4 i t s b). rewrite run_bind.
  destruct (run (translator _) w tr3) as [tr4 [e|u4]] eqn:E4; [discriminate|].
  apply translator_inv in E4
    as (t' & s' & b' & ti & si & bi & Ht & Hs & Hb & -> & ->).
  assert (t' = t) as -> by (revert Ht; lookup_state; congruence).
  assert (s' = s) as -> by (revert Hs; lookup_state; congruence).
  assert (b' = b) as -> by (revert Hb; lookup_state; congruence).
  clear Ht Hs Hb.
  rewrite <- !insert_union_l, <- insert_union_singleton_l.
  fold (state5 i t s b ti si bi). rewrite run_bind.
  destruct (run (tags_generator _ _ _ _) _ _) as [tr5 [e|u5]] eqn:E5;
    [discriminate|].
  apply (tags_success _ _ _ _ _ _ (PyStr ti) (PyStr si)) in E5
    as (a4 & g & Ha4 & -> & Htr5); [|lookup_state..].
  rewrite <- insert_union_singleton_l. fold (state6 i t s b ti si bi g).
  cbn [run]. intros [= <- <-].
  exists t, s, b, ti, si, bi, g, a1, a2, a3, a4.
  repeat match goal with |- _ /\ _ => split; [done|] end.
  rewrite Htr5, external_calls_app, Htr3, Htr2, Htr1.
  cbn. rewrite <- !app_assoc. reflexivity.
Qed.

Lemma stage_completes {A} (p : prog A) w tr (a : A) :
  (run p w tr).2 = inr a -> run p w tr = ((run p w tr).1, inr a).
Proof. destruct (run p w tr) as [tr' r]. simpl. by intros ->. Qed.

(** X14. With cooperative services, whose answers parse to dictionaries
    holding the four keys and whose translations return, the pipeline
    completes for every instruction, and the handler returns a record for
    every instruction that passes validation. *)
Theorem X14_cooperative_services_give_a_record
  (c : ChatOllama) (w : services) :
  cooperative parse_json w ->
  (forall i tr, exists tr' st,
      run (generate_article (generator c) i) w tr = (tr', inr st)) /\
  (forall s, strip s <> [] -> exists tr st,
      run (handler (PyStr s)) w [] = (tr, inr st)).
Proof.
  intros Hcoop.
  assert (forall c i tr, exists tr' st,
            run (generate_article (generator c) i) w tr = (tr', inr st))
    as Hrun.
  { clear c. intros c i tr. rewrite generate_article_sequential.
    unfold sequential_pipeline, stages. cbn [run_stages].
    fold (state1 i). rewrite run_bind.
    pose proof (title_generator_outcome py_str parse_json c (state1 i) w tr i)
      as H.
    cbv zeta in H. destruct H as [H _]; [lookup_state|].
    edestruct (answer_field_cooperative w "title_en") as [t Ht];
      [done|by left|]. rewrite Ht in H. clear Ht.
    rewrite (stage_completes _ _ _ _ H). clear H.
    rewrite <- insert_union_l, <- insert_union_singleton_l.
    fold (state2 i t). rewrite run_bind.
    set (tr1 := (run _ w tr).1). clearbody tr1.
    pose proof (summary_generator_outcome py_str parse_json c (state2 i t)
                  w tr1 t) as H.
    cbv zeta in H. destruct H as [H _]; [lookup_state|].
    edestruct (answer_field_cooperative w "summary_en") as [s Hs];
      [done|by right; left|]. rewrite Hs in H. clear Hs.
    rewrite (stage_completes _ _ _ _ H). clear H.
    rewrite <- insert_union_singleton_l.
    fold (state3 i t s). rewrite run_bind.
    set (tr2 := (run _ w tr1).1). clearbody tr2.
    pose proof (body_generator_outcome py_str parse_json c (state3 i t s)
                  w tr2 t s) as H.
    cbv zeta in H. destruct H as [H _]; [lookup_state..|].
    edestruct (answer_field_cooperative w "body_en") as [b Hb];
      [done|by right; right; left|]. rewrite Hb in H. clear Hb.
    rewrite (stage_completes _ _ _ _ H). clear H.
    rewrite <- insert_union_singleton_l.
    fold (state4 i t s b). rewrite run_bind.
    set (tr3 := (run _ w tr2).1). clearbody tr3.
    assert (exists tr4 ti si bi,
              run (translator (state4 i t s b)) w tr3
              = (tr4, inr (<[ py "title_id" := PyStr ti ]>
                           (<[ py "seo_id" := PyStr ti ]>
                            (<[ py "summary_id" := PyStr si ]>
                             {[ py "body_id" := PyStr bi ]})))))
      as (tr4 & ti & si & bi & ->).
    { unfold translator, dict_getitem.
      assert (dict_subscript (state4 i t s b) "title_en" = inr t) as ->
        by (apply dict_subscript_inr; lookup_state).
      assert (dict_subscript (state4 i t s b) "summary_en" = inr s) as ->
        by (apply dict_subscript_inr; lookup_state).
      assert (dict_subscript (state4 i t s b) "body_en" = inr b) as ->
        by (apply dict_subscript_inr; lookup_state).
      destruct Hcoop as [_ Htrans].
      cbn [bind answer print translate run]. cbv zeta.
      edestruct Htrans as [ti ->]. cbn [bind answer run]. cbv zeta.
      edestruct Htrans as [si ->]. cbn [bind answer run]. cbv zeta.
      edestruct Htrans as [bi ->]. cbn [bind answer run].
      by repeat eexists. }
    rewrite <- !insert_union_l, <- insert_union_singleton_l.
    fold (state5 i t s b ti si bi). rewrite run_bind.
    pose proof (tags_generator_outcome py_str parse_json c
                  (state5 i t s b ti si bi) w tr4 (PyStr ti) (PyStr si))
      as H.
    cbv zeta in H. destruct H as [H _]; [lookup_state..|].
    edestruct (answer_field_cooperative w "tags") as [g Hg];
      [done|by right; right; right|]. rewrite Hg in H. clear Hg.
    rewrite (stage_completes _ _ _ _ H). clear H.
    cbn [run]. by repeat eexists. }
  split; [apply Hrun|].
  intros s Hs. rewrite (run_classify_texts_valid py_str parse_json s w Hs).
  destruct (Hrun llm (PyStr s) [request_received]) as (tr & st & ->).
  by repeat eexists.
Qed.

(** X15. Each prompt is a fixed text with the input fields put in as they
    are, nothing escaped and nothing cut: the title prompt is a fixed
    head followed by the instruction, the summary prompt a fixed head
    followed by the title, and the body and tags prompts a fixed head,
    the first field, a fixed middle and the second field. *)
Theorem X15_prompts_insert_fields_verbatim :
  (exists head, forall s,
      prompt_text py_str title_prompt {[ py "instruction" := PyStr s ]}
      = head ++ s) /\
  (exists head, forall t,
      prompt_text py_str summary_prompt {[ py "title_en" := PyStr t ]}
      = head ++ t) /\
  (exists head middle, forall t s,
      prompt_text py_str body_prompt
        (<[ py "title_en" := PyStr t ]> {[ py "summary_en" := PyStr s ]})
      = head ++ t ++ middle ++ s) /\
  (exists head middle, forall ti si,
      prompt_text py_str tags_prompt
        (<[ py "title_id" := PyStr ti ]> {[ py "summary_id" := PyStr si ]})
      = head ++ ti ++ middle ++ si).
Proof.
  repeat match goal with |- _ /\ _ => split end;
    repeat eexists; intros;
    unfold prompt_text;
    cbn [template title_prompt summary_prompt body_prompt tags_prompt render];
    unfold dict_subscript;
    repeat first
      [ rewrite lookup_insert_eq
      | rewrite lookup_insert_ne by py_ne
      | rewrite lookup_singleton_eq ];
    cbn [format_value]; rewrite ?app_nil_r; reflexivity.
Qed.

(** X16. The record of a completed run has exactly the ten keys of
    [GraphState], no key more and no key less, whatever further keys the
    answers of the chat model carried. *)
Theorem X16_record_has_exactly_the_ten_keys
  (c : ChatOllama) (i : pyval) (w : services) (tr tr' : trace)
  (st : gmap pystr pyval) :
  run (generate_article (generator c) i) w tr = (tr', inr st) ->
  dom st = list_to_set (List.map py GraphState).
Proof.
  intros E. apply completed_run in E
    as (t & s & b & ti & si & bi & g & -> & _ & _).
  unfold_states. rewrite !dom_insert_L, dom_singleton_L.
  unfold GraphState. cbn [List.map list_to_set]. set_solver.
Qed.

End Serving.

(** ** The further properties on sample inputs *)

Lemma X3_witness :
  (run (title_generator sample_str sample_parse llm
          (state1 (PyStr sample_instruction))) sample_world []).2
  = inr (<[ py "title_en" := PyStr (py "Urban Gardening") ]>
           {[ py "seo_en" := PyStr (py "Urban Gardening") ]}).
Proof.
  rewrite (proj1 (X3_title_generator_outcome sample_str sample_parse llm
                    (state1 (PyStr sample_instruction)) sample_world []
                    (PyStr sample_instruction)
                    ltac:(vm_compute; reflexivity))).
  vm_compute. reflexivity.
Defined.

Lemma X4_witness :
  (run (summary_generator sample_str sample_parse llm
          (state2 (PyStr sample_instruction) (PyStr (py "Urban Gardening"))))
       babbling_world []).2
  = inl (OutputParserException (py "Sure! Here is your title")).
Proof.
  rewrite (proj1 (X4_summary_generator_outcome sample_str sample_parse llm
                    (state2 (PyStr sample_instruction)
                       (PyStr (py "Urban Gardening")))
                    babbling_world [] (PyStr (py "Urban Gardening"))
                    ltac:(vm_compute; reflexivity))).
  vm_compute. reflexivity.
Defined.

Lemma X5_witness :
  (run (body_generator sample_str sample_parse llm
          (state3 (PyStr sample_instruction) (PyStr (py "Urban Gardening"))
             (PyInt 7)))
       off_key_world []).2
  = inl (KeyError (py "body_en")).
Proof.
  rewrite (proj1 (X5_body_generator_outcome sample_str sample_parse llm
                    (state3 (PyStr sample_instruction)
                       (PyStr (py "Urban Gardening")) (PyInt 7))
                    off_key_world [] (PyStr (py "Urban Gardening"))
                    (PyInt 7)
                    ltac:(vm_compute; reflexivity)
                    ltac:(vm_compute; reflexivity))).
  vm_compute. reflexivity.
Defined.

Lemma X6_witness :
  (run (tags_generator sample_str sample_parse llm translated_state)
       tags_world []).2
  = inr {[ py "tags" := PyStr (py "kebun") ]}.
Proof.
  rewrite (proj1 (X6_tags_generator_outcome sample_str sample_parse llm
                    translated_state tags_world []
                    (PyStr (py "Berkebun di Kota"))
                    (PyStr (py "Tanaman di kota."))
                    ltac:(vm_compute; reflexivity)
                    ltac:(vm_compute; reflexivity))).
  vm_compute. reflexivity.
Defined.

Lemma X7_witness :
  run (translator
         (state4 (PyStr sample_instruction) (PyStr (py "Urban Gardening"))
            (PyStr (py "Plants in town.")) (PyStr (py "Grow things."))))
      offline_world []
  = ([EvPrint (py "Translating title & SEO to Indonesian......");
      EvTranslate (py "en") (py "id") (PyStr (py "Urban Gardening"))
        (inl (ServiceError (py "RequestError") (py "connection refused")))],
     inl (ServiceError (py "RequestError") (py "connection refused"))).
Proof.
  apply (proj1 (X7_translator_stops_at_first_failure
                  (state4 (PyStr sample_instruction)
                     (PyStr (py "Urban Gardening"))
                     (PyStr (py "Plants in town."))
                     (PyStr (py "Grow things.")))
                  offline_world []
                  (PyStr (py "Urban Gardening"))
                  (PyStr (py "Plants in town."))
                  (PyStr (py "Grow things."))
                  ltac:(vm_compute; reflexivity)
                  ltac:(vm_compute; reflexivity)
                  ltac:(vm_compute; reflexivity))).
  reflexivity.
Defined.

Lemma X8_witness :
  fails_before_calls
    (title_generator sample_str sample_parse llm blank_state)
    (KeyError (py "instruction")).
Proof.
  apply (proj1 (X8_missing_input_raises_key_error sample_str sample_parse
                  llm blank_state)).
  vm_compute. reflexivity.
Defined.

Lemma X9_witness :
  summary_generator sample_str sample_parse llm
    (state2 (PyStr sample_instruction) (PyStr (py "Urban Gardening")))
  = summary_generator sample_str sample_parse llm
      (state4 (PyStr sample_instruction) (PyStr (py "Urban Gardening"))
         (PyStr (py "Plants in town.")) (PyStr (py "Grow things."))).
Proof.
  apply (proj1 (proj2 (X9_stages_read_only_their_inputs sample_str
                         sample_parse llm
                         (state2 (PyStr sample_instruction)
                            (PyStr (py "Urban Gardening")))
                         (state4 (PyStr sample_instruction)
                            (PyStr (py "Urban Gardening"))
                            (PyStr (py "Plants in town."))
                            (PyStr (py "Grow things.")))))).
  vm_compute. reflexivity.
Defined.

Lemma X12_witness :
  exists app cf name f,
    compile (workflow sample_generator) = Ret app /\
    reachable babbling_world app
      {[ py "instruction" := PyStr sample_instruction ]}
      [request_received] cf /\
    tasks cf = [name] /\
    lookup_node (nodes (builder app)) name = Some f /\
    f ∈ stages sample_str sample_parse llm /\
    run (f (state cf)) babbling_world (log cf)
    = ((run (generate_article sample_generator (PyStr sample_instruction))
            babbling_world [request_received]).1,
       inl (OutputParserException (py "Sure! Here is your title"))).
Proof.
  apply (X12_pipeline_failure_is_a_stage_failure sample_str sample_parse llm
           (PyStr sample_instruction) babbling_world [request_received]).
  vm_compute. reflexivity.
Defined.

Lemma X13_witness :
  exists t s b ti si bi g a1 a2 a3 a4,
    sample_final = state6 (PyStr sample_instruction) t s b ti si bi g /\
    answer_field sample_parse "title_en" a1 = inr t /\
    answer_field sample_parse "summary_en" a2 = inr s /\
    answer_field sample_parse "body_en" a3 = inr b /\
    answer_field sample_parse "tags" a4 = inr g /\
    external_calls sample_run.1
    = external_calls [request_received]
      ++ [EvLLM llm (prompt_text sample_str title_prompt
                       {[ py "instruction" := PyStr sample_instruction ]}) a1;
          EvLLM llm (prompt_text sample_str summary_prompt
                       {[ py "title_en" := t ]}) a2;
          EvLLM llm (prompt_text sample_str body_prompt
                       (<[ py "title_en" := t ]> {[ py "summary_en" := s ]}))
            a3]
      ++ three_translations t s b ti si bi
      ++ [EvLLM llm (prompt_text sample_str tags_prompt
                       (<[ py "title_id" := PyStr ti ]>
                          {[ py "summary_id" := PyStr si ]})) a4].
Proof.
  apply (X13_completed_run_calls sample_str sample_parse llm
           (PyStr sample_instruction) sample_world [request_received]
           sample_run.1 sample_final).
  apply sample_run_completes.
Defined.

Lemma generous_world_cooperative : cooperative generous_parse generous_world.
Proof.
  split.
  - intros tr c prompt. exists (py "kebun"). eexists.
    split; [reflexivity|]. split; [reflexivity|].
    repeat split; eexists; lookup_state.
  - intros tr src tgt text. by eexists.
Defined.

Lemma X14_witness :
  exists tr st,
    run (classify_texts sample_str generous_parse (PyStr sample_instruction))
        generous_world [] = (tr, inr st).
Proof.
  apply (proj2 (X14_cooperative_services_give_a_record sample_str
                  generous_parse llm generous_world
                  generous_world_cooperative)).
  apply sample_instruction_valid.
Defined.

Lemma X16_witness :
  dom sample_final = list_to_set (List.map py GraphState).
Proof.
  apply (X16_record_has_exactly_the_ten_keys sample_str sample_parse llm
           (PyStr sample_instruction) sample_world [request_received]
           sample_run.1 sample_final).
  apply sample_run_completes.
Defined.
